(** * Stress detector: signal-fusion and scoring engine

    Shallow embedding of the scoring core of the stress detector
    (TypeScript).  JavaScript numbers are modelled by rationals [Q]; the
    only non-finite value the modelled code can produce, [NaN], is kept
    explicit as [JNaN] where it arises (a baseline object that lacks a
    property).  [Math.sqrt] is not a rational function: the definitions
    that call it take it as a parameter, and every theorem about them holds
    for any such function. *)

From Stdlib Require Import QArith Qpower Qminmax Qabs Qround Lqa.
From Stdlib Require Import ZArith List String Ascii Bool Lia.
Import ListNotations.

Open Scope Q_scope.

(** ** JavaScript numeric helpers *)

(** [Math.round]: rounds half-way cases up, [Math.floor(x + 0.5)]. *)
Definition Math_round (x : Q) : Q := inject_Z (Qfloor (x + (1#2))).

(** [clamp] of src/src/main.ts: [Math.min(max, Math.max(min, value))]. *)
Definition clamp (value min max : Q) : Q := Qmin max (Qmax min value).

(** [a < b] on numbers. *)
Definition Qlt_bool (a b : Q) : bool := negb (Qle_bool b a).

(** [applyEMA] of src/src/main.ts. *)
Definition applyEMA (newValue previousValue alpha : Q) : Q :=
  alpha * newValue + (1 - alpha) * previousValue.

(** [average] of src/src/main.ts. *)
Definition average (values : list Q) : Q :=
  match values with
  | [] => 0
  | _ => fold_left Qplus values 0 / inject_Z (Z.of_nat (List.length values))
  end.

(** A JavaScript number as stored in a [Record<string, number>]. *)
Inductive jsnum : Type :=
| JNum (q : Q)
| JNaN.

(** [x || d] on a number: [0], [NaN] and [undefined] are falsy. *)
Definition js_or (v : option jsnum) (d : Q) : Q :=
  match v with
  | Some (JNum q) => if Qeq_bool q 0 then d else q
  | _ => d
  end.

(** A [Record<string, number>], keys in insertion order. *)
Definition record := list (string * jsnum).

Fixpoint lookup (k : string) (m : record) : option jsnum :=
  match m with
  | [] => None
  | (k', v) :: r => if String.eqb k k' then Some v else lookup k r
  end.

(** ** probability-calculator: [calculateDeceptionProbability]
    (src/unnamed/part_002) *)

Definition weights : list (string * Q) :=
  [("attention", 28#100); ("blinkRate", 22#100); ("fatigue", 16#100);
   ("headMotion", 18#100); ("emotionVolatility", 16#100)]%string.

Definition deception_step (zScores : record) (acc : Q * Q) (kw : string * Q)
  : Q * Q :=
  let '(deceptionScore, totalWeight) := acc in
  let '(key, weight) := kw in
  let z := js_or (lookup key zScores) 0 in
  let normalizedZ := Qmin (Qmax (z / 2) 0) 1 in
  (deceptionScore + normalizedZ * weight, totalWeight + weight).

Definition calculateDeceptionProbability (zScores : record) : Q :=
  match zScores with
  | [] => 0
  | _ =>
      let '(deceptionScore, totalWeight) :=
        fold_left (deception_step zScores) weights (0, 0) in
      let probability := (deceptionScore / Qmax totalWeight 1) * 100 in
      Math_round (Qmin (Qmax probability 0) 100)
  end.

(** ** Deception signal processors *)

(** The z-score inputs held by a [SignalProcessor]. *)
Record Signals : Type := mkSignals {
  attention : Q;
  blinkRate : Q;
  fatigue : Q;
  headMotion : Q;
  emotionVolatility : Q
}.

Definition zeroSignals : Signals := mkSignals 0 0 0 0 0.

(** [SignalProcessor] of src/src/deception/signal-processor.ts, the module
    that src/src/main.ts imports. *)
Module SignalProcessor.

(** [BaselineMetrics]; [emotionVolatilityStd] is [None] when the object
    lacks the property (reading it gives [undefined]). *)
Record BaselineMetrics : Type := mkBaseline {
  attentionMean : Q;
  attentionStd : Q;
  blinkRateMean : Q;
  blinkRateStd : Q;
  fatigueMean : Q;
  fatigueStd : Q;
  headMotionMean : Q;
  headMotionStd : Q;
  emotionVolatilityMean : Q;
  emotionVolatilityStd : option Q
}.

Definition DEFAULT_BASELINE : BaselineMetrics :=
  mkBaseline 75 12 15 4 25 8 5 2 (15#100) (Some (8#100)).

Record state : Type := mkState {
  baseline : option BaselineMetrics;
  currentSignals : Signals
}.

Definition init : state := mkState None zeroSignals.

Definition setBaseline (st : state) (b : BaselineMetrics) : state :=
  mkState (Some b) (currentSignals st).

Definition updateSignals (st : state) (s : Signals) : state :=
  mkState (baseline st) s.

(** [|value - mean| / Math.max(std, floor)]. *)
Definition zscore (value mean std floor : Q) : Q :=
  Qabs (value - mean) / Qmax std floor.

Definition calculateZScores (st : state) : record :=
  let b := match baseline st with Some b => b | None => DEFAULT_BASELINE end in
  let s := currentSignals st in
  [("attention", JNum (zscore (attention s) (attentionMean b) (attentionStd b) (1#10)));
   ("blinkRate", JNum (zscore (blinkRate s) (blinkRateMean b) (blinkRateStd b) 1));
   ("fatigue", JNum (zscore (fatigue s) (fatigueMean b) (fatigueStd b) 1));
   ("headMotion", JNum (zscore (headMotion s) (headMotionMean b) (headMotionStd b) (1#10)));
   ("emotionVolatility",
     match emotionVolatilityStd b with
     | Some sd => JNum (zscore (emotionVolatility s) (emotionVolatilityMean b) sd (1#10))
     | None => JNaN (* Math.max(undefined, 0.1) is NaN *)
     end)]%string.

Definition isUsingDefaultBaseline (st : state) : bool :=
  match baseline st with None => true | Some _ => false end.

(** [getBaseline]: [this.baseline || DEFAULT_BASELINE]. *)
Definition getBaseline (st : state) : BaselineMetrics :=
  match baseline st with Some b => b | None => DEFAULT_BASELINE end.

End SignalProcessor.

(** The earlier [SignalProcessor] of src/unnamed/part_001. *)
Module SignalProcessorDraft.

Record BaselineMetrics : Type := mkBaseline {
  attentionMean : Q;
  attentionStd : Q;
  blinkRateMean : Q;
  blinkRateStd : Q;
  fatigueMean : Q;
  fatigueStd : Q;
  headMotionMean : Q;
  headMotionStd : Q;
  emotionVolatilityMean : Q
}.

Record state : Type := mkState {
  baseline : option BaselineMetrics;
  currentSignals : Signals
}.

Definition calculateZScores (st : state) : record :=
  match baseline st with
  | None => []
  | Some b =>
      let s := currentSignals st in
      [("attention", JNum (Qabs (attention s - attentionMean b) / Qmax (attentionStd b) (1#10)));
       ("blinkRate", JNum (Qabs (blinkRate s - blinkRateMean b) / Qmax (blinkRateStd b) 1));
       ("fatigue", JNum (Qabs (fatigue s - fatigueMean b) / Qmax (fatigueStd b) 1));
       ("headMotion", JNum (Qabs (headMotion s - headMotionMean b) / Qmax (headMotionStd b) (1#10)));
       ("emotionVolatility", JNum (emotionVolatility s / Qmax (emotionVolatilityMean b) (1#10)))]%string
  end.

End SignalProcessorDraft.

(** ** Bounded rolling buffers: [pushLimited] / [pushEmotionLimited]
    (src/src/main.ts): [values.push(value)], then one [values.shift()] when
    the length exceeds [maxSize]. *)

Definition pushLimited {A : Type} (values : list A) (value : A) (maxSize : nat)
  : list A :=
  let pushed := values ++ [value] in
  if Nat.ltb maxSize (List.length pushed) then tl pushed else pushed.

(** Pushing a sequence of values one after the other. *)
Definition pushAll {A : Type} (maxSize : nat) (values : list A) (xs : list A)
  : list A :=
  fold_left (fun acc x => pushLimited acc x maxSize) xs values.

(** The last [n] elements of a list. *)
Definition lastn {A : Type} (n : nat) (l : list A) : list A :=
  skipn (List.length l - n) l.

(** ** Runtime state of src/src/main.ts *)

Inductive EmotionLabel : Type :=
| Neutral | Feliz | Triste | Enojado | Sorprendido | Asustado | Disgustado.

Scheme Equality for EmotionLabel.

Record HeadPose : Type := mkHeadPose { yaw : Q; pitch : Q; roll : Q }.

Record CalibrationData : Type := mkCalibrationData {
  cal_attention : list Q;
  cal_blinkRate : list Q;
  cal_fatigue : list Q;
  cal_headMotion : list Q;
  cal_emotionVolatility : list Q
}.

Definition emptyCalibrationData : CalibrationData :=
  mkCalibrationData [] [] [] [] [].

(** The fields of [RuntimeState] read or written by the deception estimate,
    the attention estimate and the calibration; [curBlinkRate],
    [curHeadPose] and [curAttention] are [currentAnalysis.fatigue.blinkRate],
    [currentAnalysis.headPose] and [currentAnalysis.attention]. *)
Record RuntimeState : Type := mkRuntimeState {
  attentionHistory : list Q;
  fatigueHistory : list Q;
  emotionHistory : list EmotionLabel;
  smoothedAttention : Q;
  curBlinkRate : Q;
  curHeadPose : HeadPose;
  curAttention : Q * bool;
  signalProcessor : SignalProcessor.state;
  isCalibrating : bool;
  calibrationData : CalibrationData
}.

(** The initial [runtimeState] literal. *)
Definition initialRuntimeState : RuntimeState :=
  mkRuntimeState [] [] [] 75 14 (mkHeadPose 0 0 0) (75, false)
    SignalProcessor.init false emptyCalibrationData.

(** Adjacent-pair label changes, the loop of [calculateDeceptionEstimate]. *)
Fixpoint transitions (l : list EmotionLabel) : nat :=
  match l with
  | a :: ((b :: _) as r) =>
      (if EmotionLabel_beq b a then 0 else 1) + transitions r
  | _ => 0
  end.

(** [emotionHistory.slice(-20)] and its transition rate. *)
Definition emotionVolatilityOf (history : list EmotionLabel) : Q :=
  let recentEmotions := lastn 20 history in
  match recentEmotions with
  | [] => 0
  | _ =>
      if Nat.ltb 1 (List.length recentEmotions)
      then inject_Z (Z.of_nat (transitions recentEmotions))
           / inject_Z (Z.of_nat (List.length recentEmotions - 1))
      else 0
  end.

Section WithSqrt.

(** [Math.sqrt]. *)
Variable Math_sqrt : Q -> Q.

(** [Math.sqrt(yaw^2 + pitch^2 + roll^2)]. *)
Definition headMotionOf (hp : HeadPose) : Q :=
  Math_sqrt (yaw hp * yaw hp + pitch hp * pitch hp + roll hp * roll hp).

(** [calculateDeceptionEstimate]: the new state (its signal processor
    holds the updated signals) and the returned number. *)
Definition calculateDeceptionEstimate (rs : RuntimeState) : RuntimeState * Q :=
  let attentionAvg := js_or (Some (JNum (average (attentionHistory rs)))) 75 in
  let blinkRate := curBlinkRate rs in
  let fatigueAvg := js_or (Some (JNum (average (fatigueHistory rs)))) 25 in
  let headMotion := headMotionOf (curHeadPose rs) in
  let emotionVolatility := emotionVolatilityOf (emotionHistory rs) in
  let sp := SignalProcessor.updateSignals (signalProcessor rs)
              (mkSignals attentionAvg blinkRate fatigueAvg headMotion
                 emotionVolatility) in
  let zScores := SignalProcessor.calculateZScores sp in
  let deceptionProbability := calculateDeceptionProbability zScores in
  (mkRuntimeState (attentionHistory rs) (fatigueHistory rs) (emotionHistory rs)
     (smoothedAttention rs) (curBlinkRate rs) (curHeadPose rs) (curAttention rs)
     sp (isCalibrating rs) (calibrationData rs),
   Math_round deceptionProbability).

(** [calculateStats] inside the calibration timeout of [init]. *)
Definition calculateStats (data : list Q) : Q * Q :=
  match data with
  | [] => (0, 1#10)
  | _ =>
      let n := inject_Z (Z.of_nat (List.length data)) in
      let mean := fold_left Qplus data 0 / n in
      let variance :=
        fold_left (fun a b => a + (b - mean) * (b - mean)) data 0 / n in
      let std := js_or (Some (JNum (Math_sqrt variance))) (1#10) in
      (mean, std)
  end.

(** The [baseline] object literal assembled when calibration ends. *)
Definition calibrationBaseline (cd : CalibrationData)
  : SignalProcessor.BaselineMetrics :=
  SignalProcessor.mkBaseline
    (fst (calculateStats (cal_attention cd)))
    (snd (calculateStats (cal_attention cd)))
    (fst (calculateStats (cal_blinkRate cd)))
    (snd (calculateStats (cal_blinkRate cd)))
    (fst (calculateStats (cal_fatigue cd)))
    (snd (calculateStats (cal_fatigue cd)))
    (fst (calculateStats (cal_headMotion cd)))
    (snd (calculateStats (cal_headMotion cd)))
    (fst (calculateStats (cal_emotionVolatility cd)))
    None (* the literal has no emotionVolatilityStd property *).

(** The body of the 5000 ms [setTimeout] callback. *)
Definition finishCalibration (rs : RuntimeState) : RuntimeState :=
  mkRuntimeState (attentionHistory rs) (fatigueHistory rs) (emotionHistory rs)
    (smoothedAttention rs) (curBlinkRate rs) (curHeadPose rs) (curAttention rs)
    (SignalProcessor.setBaseline (signalProcessor rs)
       (calibrationBaseline (calibrationData rs)))
    false (calibrationData rs).

(** The per-frame calibration sample of [analyzeFrame]. *)
Definition collectCalibration (rs : RuntimeState) (attentionLevel blinkRate
  fatigueScore emotionScore : Q) : RuntimeState :=
  if isCalibrating rs then
    let cd := calibrationData rs in
    mkRuntimeState (attentionHistory rs) (fatigueHistory rs) (emotionHistory rs)
      (smoothedAttention rs) (curBlinkRate rs) (curHeadPose rs) (curAttention rs)
      (signalProcessor rs) (isCalibrating rs)
      (mkCalibrationData
         (cal_attention cd ++ [attentionLevel])
         (cal_blinkRate cd ++ [blinkRate])
         (cal_fatigue cd ++ [fatigueScore])
         (cal_headMotion cd ++ [headMotionOf (curHeadPose rs)])
         (cal_emotionVolatility cd ++ [emotionScore]))
  else rs.

End WithSqrt.

(** The calibrate-button handler: histories cleared, a fresh accumulator. *)
Definition startCalibration (rs : RuntimeState) : RuntimeState :=
  mkRuntimeState [] [] [] (smoothedAttention rs) (curBlinkRate rs)
    (curHeadPose rs) (curAttention rs) (signalProcessor rs) true
    emptyCalibrationData.

(** ** Attention: [estimateAttention] and the attention part of
    [analyzeFrame] (src/src/main.ts) *)

(** The face features [estimateAttention] reads; [undefined] head-pose
    angles are [None]. *)
Record FaceAnalysis : Type := mkFaceAnalysis {
  eyeLookOut : Q;
  eyeLookUp : Q;
  eyeLookDown : Q;
  faceYaw : option Q;
  facePitch : option Q
}.

Definition opt_num (v : option Q) : option jsnum :=
  match v with Some q => Some (JNum q) | None => None end.

(** [attentionRaw], before smoothing. *)
Definition attentionRaw (fa : FaceAnalysis) : Q :=
  let gazeAway := Qmax (Qmax (eyeLookOut fa) (eyeLookUp fa)) (eyeLookDown fa) in
  let headYaw := Qabs (js_or (opt_num (faceYaw fa)) 0) / 45 in
  let headPitch := Qabs (js_or (opt_num (facePitch fa)) 0) / 45 in
  let headAway := Qmax (Qmin headYaw 1) (Qmin headPitch 1) in
  100 * (1 - clamp ((6#10) * gazeAway + (4#10) * headAway) 0 1).

(** [estimateAttention]: the new [smoothedAttention] and the returned level. *)
Definition estimateAttention (smoothed : Q) (faceAnalysis : option FaceAnalysis)
  (emotion : EmotionLabel * Q) : Q * Q :=
  match faceAnalysis with
  | None =>
      let '(label, score) := emotion in
      let emotionPenalty :=
        match label with
        | Asustado | Enojado => clamp (score * 10) 0 10
        | Triste => clamp (score * 7) 0 7
        | _ => 0
        end in
      (smoothed, clamp (75 - emotionPenalty) 20 99)
  | Some fa =>
      let smoothed' := applyEMA (attentionRaw fa) smoothed (15#100) in
      (smoothed', clamp (Math_round smoothed') 20 99)
  end.

(** The attention steps of [analyzeFrame]: estimate, push into the 30-entry
    history, and build [currentAnalysis.attention] = (level, gazingAway). *)
Definition analyzeAttention (rs : RuntimeState) (faceAnalysis : option FaceAnalysis)
  (emotion : EmotionLabel * Q) : RuntimeState :=
  let '(smoothed', attentionLevel) :=
    estimateAttention (smoothedAttention rs) faceAnalysis emotion in
  let history := pushLimited (attentionHistory rs) attentionLevel 30 in
  let level := Math_round (js_or (Some (JNum (average history))) attentionLevel) in
  mkRuntimeState history (fatigueHistory rs) (emotionHistory rs) smoothed'
    (curBlinkRate rs) (curHeadPose rs)
    (level, Qlt_bool attentionLevel 55)
    (signalProcessor rs) (isCalibrating rs) (calibrationData rs).

(** ** [BlinkDetector.update] (src/unnamed/part_004, first class) *)

Module Blink.

Definition EAR_THRESHOLD : Q := 18#100.
Definition MAR_THRESHOLD : Q := 1#2.
Definition windowSize : Z := 60000.

Record BlinkFrame : Type := mkFrame {
  timestamp : Z;
  isEyeOpen : bool;
  isYawning : bool
}.

Record state : Type := mkState {
  frames : list BlinkFrame;
  blinkEvents : list Z
}.

Definition init : state := mkState [] [].

Record output : Type := mkOutput {
  blinks : Q;
  isBlinking : bool;
  out_isYawning : bool
}.

Definition dummyFrame : BlinkFrame := mkFrame 0 false false.

(** [prev.isEyeOpen && !curr.isEyeOpen] on the last two frames. *)
Definition closesAtEnd (fs : list BlinkFrame) : bool :=
  let n := List.length fs in
  Nat.leb 2 n &&
  (isEyeOpen (nth (n - 2) fs dummyFrame) &&
   negb (isEyeOpen (nth (n - 1) fs dummyFrame))).

(** [elapsedWindowMs]. *)
Definition elapsedWindowMs (fs : list BlinkFrame) : Z :=
  let n := List.length fs in
  if Nat.ltb 1 n
  then Z.max 1000 (timestamp (nth (n - 1) fs dummyFrame) - timestamp (nth 0 fs dummyFrame))
  else 0.

Definition update (st : state) (ear mar : Q) (now : Z) : state * output :=
  let isEyeOpen' := negb (Qle_bool ear EAR_THRESHOLD) in
  let isYawning' := negb (Qle_bool mar MAR_THRESHOLD) in
  let frames1 := frames st ++ [mkFrame now isEyeOpen' isYawning'] in
  let frames2 := filter (fun f => Z.ltb (now - timestamp f) windowSize) frames1 in
  let events1 := filter (fun t => Z.ltb (now - t) windowSize) (blinkEvents st) in
  let events2 := if closesAtEnd frames2 then events1 ++ [now] else events1 in
  let elapsed := elapsedWindowMs frames2 in
  let blinksPerMinute :=
    if Z.ltb 0 elapsed
    then Math_round (inject_Z (Z.of_nat (List.length events2)) / inject_Z elapsed * 60000)
    else 0 in
  (mkState frames2 events2, mkOutput blinksPerMinute (negb isEyeOpen') isYawning').

(** Feeding a sequence of (ear, mar, now) observations; the outputs in
    order. *)
Fixpoint run (st : state) (obs : list (Q * Q * Z)) : state * list output :=
  match obs with
  | [] => (st, [])
  | (ear, mar, now) :: rest =>
      let '(st1, o) := update st ear mar now in
      let '(st2, os) := run st1 rest in
      (st2, o :: os)
  end.

End Blink.

(** ** Personality: src/src/analysis/personality-analyzer.ts *)

Record BigFive : Type := mkBigFive { O : Q; C : Q; E : Q; A : Q; N : Q }.

(** A call that returns a value or throws an [Error] with a message. *)
Inductive result (T : Type) : Type :=
| Ok (v : T)
| Throw (msg : string).
Arguments Ok {T} v.
Arguments Throw {T} msg.

Definition invert (value : Q) : Q := 6 - value.

Definition clampLikert (value : Q) : Q := Qmin 5 (Qmax 1 (Math_round value)).

Definition computeBigFive (answers : list Q) : result BigFive :=
  if negb (Nat.eqb (List.length answers) 10)
  then Throw "Se requieren 10 respuestas para calcular Big Five."%string
  else
    let sanitized := map clampLikert answers in
    let s i := nth i sanitized 0 in
    Ok (mkBigFive ((s 0%nat + invert (s 1%nat)) / 2)
                  ((s 2%nat + invert (s 3%nat)) / 2)
                  ((s 4%nat + invert (s 5%nat)) / 2)
                  ((s 6%nat + invert (s 7%nat)) / 2)
                  ((s 8%nat + invert (s 9%nat)) / 2)).

Definition traitToPercent (value : Q) : Q :=
  let clamped := Qmin 5 (Qmax 1 value) in
  Math_round (((clamped - 1) / 4) * 100).

(** ** The composite score as the spec words it *)

(** [round(100 * (0.28*clamp(z_a/2,0,1) + 0.22*clamp(z_b/2,0,1) + ...))]. *)
Definition composite_spec (za zb zf zh ze : Q) : Q :=
  Math_round (100 * ((28#100) * clamp (za / 2) 0 1 + (22#100) * clamp (zb / 2) 0 1
                     + (16#100) * clamp (zf / 2) 0 1 + (18#100) * clamp (zh / 2) 0 1
                     + (16#100) * clamp (ze / 2) 0 1)).

(** The z-score the scorer reads for key [k]: [zScores[k] || 0]. *)
Definition zOf (m : record) (k : string) : Q := js_or (lookup k m) 0.

(** A z-score map with the five keys, in the order [calculateZScores]
    inserts them. *)
Definition zmap (za zb zf zh ze : Q) : record :=
  [("attention", JNum za); ("blinkRate", JNum zb); ("fatigue", JNum zf);
   ("headMotion", JNum zh); ("emotionVolatility", JNum ze)]%string.

(** A rational square root, exact when [q * den(q)^2] is a perfect square
    (as [Math.sqrt] is on such inputs), used to run the model. *)
Definition Qsqrt_floor (q : Q) : Q :=
  Z.sqrt (Qnum q * Zpos (Qden q)) # Qden q.

(** A trait score [v] built from the answers [x] and reverse-coded [y]:
    the mean of the pair with [y] inverted, in [[1, 5]], and its display
    percent [round((v - 1) / 4 * 100)]. *)
Definition likert_trait (v x y : Q) : Prop :=
  v == (x + invert y) / 2 /\ (1 <= v /\ v <= 5) /\
  traitToPercent v = Math_round ((v - 1) / 4 * 100).

(** An alternating eye: open (EAR 0.3) during even seconds, closed
    (EAR 0.1) during odd seconds. *)
Definition ear_at (t : Z) : Q := if Z.even (t / 1000)%Z then 3#10 else 1#10.

(** [n] frames of that eye, one every [step] ms from time 0. *)
Definition blink_feed (step : Z) (n : nat) : list (Q * Q * Z) :=
  map (fun i => (ear_at (step * Z.of_nat i)%Z, 0, (step * Z.of_nat i)%Z)) (seq 0 n).

(** Three calibration frames at attention 80 after a calibration start. *)
Definition calibration80_state : RuntimeState :=
  collectCalibration Qsqrt_floor
    (collectCalibration Qsqrt_floor
       (collectCalibration Qsqrt_floor
          (startCalibration initialRuntimeState) 80 14 25 (1#2))
       80 14 25 (1#2))
    80 14 25 (1#2).

(** ** Emotion fusion: [normalizeEmotionLabel], [combineEmotionSignals]
    and [updateStableEmotion] (src/src/main.ts) *)

(** The characters [String.prototype.trim] removes, on ASCII text: TAB, LF,
    VT, FF, CR and space. *)
Definition is_js_space (c : ascii) : bool :=
  match nat_of_ascii c with
  | 9 | 10 | 11 | 12 | 13 | 32 => true
  | _ => false
  end%nat.

Fixpoint dropWhile (p : ascii -> bool) (l : list ascii) : list ascii :=
  match l with
  | [] => []
  | c :: r => if p c then dropWhile p r else l
  end.

(** [label.trim()] on an ASCII string. *)
Definition trim (s : string) : string :=
  string_of_list_ascii
    (rev (dropWhile is_js_space (rev (dropWhile is_js_space (list_ascii_of_string s))))).

Definition ascii_lower (c : ascii) : ascii :=
  let n := nat_of_ascii c in
  if Nat.leb 65 n && Nat.leb n 90 then ascii_of_nat (n + 32) else c.

(** [toLowerCase()] on an ASCII string. *)
Definition toLowerCase (s : string) : string :=
  string_of_list_ascii (map ascii_lower (list_ascii_of_string s)).

(** [normalizeEmotionLabel], on the ASCII labels the emotion models emit. *)
Definition normalizeEmotionLabel (label : string) : EmotionLabel :=
  let normalized := toLowerCase (trim label) in
  if String.eqb normalized "feliz" || String.eqb normalized "happy" then Feliz
  else if String.eqb normalized "triste" || String.eqb normalized "sad" then Triste
  else if String.eqb normalized "enojado" || String.eqb normalized "angry" then Enojado
  else if String.eqb normalized "sorprendido" || String.eqb normalized "surprised"
  then Sorprendido
  else if String.eqb normalized "asustado" || String.eqb normalized "fear"
          || String.eqb normalized "fearful" then Asustado
  else if String.eqb normalized "disgustado" || String.eqb normalized "disgust"
  then Disgustado
  else Neutral.

(** [EmotionResult] of src/src/types/index.ts. *)
Record EmotionResult : Type := mkEmotionResult { er_label : string; er_score : Q }.

Definition combineEmotionSignals (faceEmotion : option EmotionResult)
  (modelEmotion : EmotionResult) : EmotionLabel * Q :=
  match faceEmotion with
  | None =>
      (normalizeEmotionLabel (er_label modelEmotion),
       clamp (er_score modelEmotion) (35#100) (95#100))
  | Some fe =>
      let face_label := normalizeEmotionLabel (er_label fe) in
      let face_score := clamp (er_score fe) (35#100) (95#100) in
      let local_label := normalizeEmotionLabel (er_label modelEmotion) in
      let local_score := clamp (er_score modelEmotion) (35#100) (95#100) in
      let '(faceWeight, localWeight) :=
        if Qlt_bool (face_score + (12#100)) local_score
        then (45#100, 55#100) else (58#100, 42#100) in
      if EmotionLabel_beq face_label local_label then
        (face_label,
         clamp (face_score * faceWeight + local_score * localWeight + (3#100))
               (4#10) (95#100))
      else
        let faceStrength := face_score * faceWeight in
        let localStrength := local_score * localWeight in
        if Qlt_bool (Qabs (faceStrength - localStrength)) (8#100) then
          if EmotionLabel_beq face_label Neutral && negb (EmotionLabel_beq local_label Neutral)
          then (local_label, clamp local_score (4#10) (95#100))
          else (face_label, clamp face_score (4#10) (95#100))
        else if Qlt_bool localStrength faceStrength
        then (face_label, clamp face_score (4#10) (95#100))
        else (local_label, clamp local_score (4#10) (95#100))
  end.

(** [runtimeState.emotionScores]: a [Record<string, number>] keyed by
    emotion labels, in insertion order. *)
Definition emotionScores := list (EmotionLabel * Q).

Fixpoint assoc_get (k : EmotionLabel) (m : emotionScores) : option Q :=
  match m with
  | [] => None
  | (k', v) :: r => if EmotionLabel_beq k k' then Some v else assoc_get k r
  end.

(** [m[k] = v]: an existing key keeps its place, a new key goes last. *)
Fixpoint assoc_set (k : EmotionLabel) (v : Q) (m : emotionScores) : emotionScores :=
  match m with
  | [] => [(k, v)]
  | (k', v') :: r =>
      if EmotionLabel_beq k k' then (k', v) :: r else (k', v') :: assoc_set k v r
  end.

(** One step of the [Object.entries(...).forEach] scan:
    (bestLabel, bestScore, total). *)
Definition bestStep (acc : EmotionLabel * Q * Q) (e : EmotionLabel * Q)
  : EmotionLabel * Q * Q :=
  let '(bestLabel, bestScore, total) := acc in
  let '(label, score) := e in
  if Qlt_bool bestScore score
  then (label, score, total + score)
  else (bestLabel, bestScore, total + score).

(** [updateStableEmotion]: the new [emotionScores] and the returned
    (label, score). *)
Definition updateStableEmotion (scores : emotionScores) (rawLabel : EmotionLabel)
  (rawScore : Q) : emotionScores * (EmotionLabel * Q) :=
  let decayFactor := 86#100 in
  let decayed := map (fun e => (fst e, snd e * decayFactor)) scores in
  let previous := js_or (option_map JNum (assoc_get rawLabel decayed)) 0 in
  let scores' := assoc_set rawLabel (previous + rawScore) decayed in
  let '(bestLabel, bestScore, total) := fold_left bestStep scores' (rawLabel, 0, 0) in
  let normalizedScore :=
    if Qlt_bool 0 total then clamp (bestScore / total + (1#4)) (35#100) (92#100)
    else 65#100 in
  (scores', (bestLabel, normalizedScore)).

(** ** Age: [estimateAge] (src/src/main.ts) *)

(** The fields of a [FaceAnalysis] read by [estimateAge] and
    [estimateFatigue]; [blendshapes] may be [undefined]. *)
Record FaceGeometry : Type := mkFaceGeometry {
  blendshapes : option (list (string * Q));
  eyeAspectRatio : Q;
  mouthAspectRatio : Q
}.






(** ** Fatigue: [estimateFatigue] (src/src/main.ts) *)

(** [Math.min(...values)]; the call site passes the EAR history right
    after a push, never an empty list. *)
Definition Math_min_list (values : list Q) : Q :=
  match values with
  | [] => 0
  | x :: r => fold_left Qmin r x
  end.

(** [Number(x.toFixed(2))]: the nearest multiple of 0.01, ties away from
    zero. *)
Definition toFixed2 (x : Q) : Q :=
  let r a := inject_Z (Qfloor (a * 100 + (1#2))) / 100 in
  if Qlt_bool x 0 then - r (- x) else r x.

Record FatigueState : Type := mkFatigueState {
  earHistory : list Q;
  blinkRateHistory : list Q;
  yawnCount : Z;
  smoothedFatigue : Q
}.

Record FatigueResult : Type := mkFatigueResult {
  fatigue_score : Q;
  fatigue_level : string;
  fatigue_blinkRate : Q;
  fatigue_eyeAspectRatio : Q
}.

(** [estimateFatigue]: the new state and the returned result; [blinkInfo]
    is the [BlinkDetector.update] output. *)
Definition estimateFatigue (st : FatigueState) (faceAnalysis : option FaceGeometry)
  (blinkInfo : option Blink.output) (emotion : EmotionLabel * Q)
  : FatigueState * FatigueResult :=
  match faceAnalysis with
  | None => (st, mkFatigueResult 35 "Baja"%string 14 (34#100))
  | Some fa =>
      let ear := eyeAspectRatio fa in
      let blinkRate := js_or (option_map (fun b => JNum (Blink.blinks b)) blinkInfo) 0 in
      let isYawning := match blinkInfo with Some b => Blink.out_isYawning b | None => false end in
      let earHistory' := pushLimited (earHistory st) ear 60 in
      let blinkRateHistory' :=
        if Qlt_bool 0 blinkRate then pushLimited (blinkRateHistory st) blinkRate 60
        else blinkRateHistory st in
      let earMin := Math_min_list earHistory' in
      let normalizedBlinkRate := clamp (blinkRate / 28) 0 1 in
      let lowBlinkPenalty :=
        if Qlt_bool 0 blinkRate && Qlt_bool blinkRate 8 then (8 - blinkRate) / 8 else 0 in
      let prolongedClosure := clamp (((2#10) - ear) / (7#100)) 0 1 in
      let microSleepRisk := clamp (((17#100) - earMin) / (5#100)) 0 1 in
      let yawnBonus := if isYawning then 1 else 0 in
      let yawnCount' := if isYawning then (yawnCount st + 1)%Z else yawnCount st in
      let earClosedPercent :=
        inject_Z (Z.of_nat (List.length (filter (fun e => Qlt_bool e (2#10)) earHistory')))
        / Qmax (inject_Z (Z.of_nat (List.length earHistory'))) 1 in
      let fatigueScore :=
        clamp (earClosedPercent * 35 + prolongedClosure * 22 + normalizedBlinkRate * 18
               + lowBlinkPenalty * 12 + microSleepRisk * 8 + yawnBonus * 12
               + match fst emotion with Triste => snd emotion * 8 | _ => 0 end) 0 100 in
      let smoothed := applyEMA fatigueScore (smoothedFatigue st) (18#100) in
      let level :=
        (if Qle_bool 67 smoothed then "Alta"
         else if Qle_bool 34 smoothed then "Media" else "Baja")%string in
      (mkFatigueState earHistory' blinkRateHistory' yawnCount' smoothed,
       mkFatigueResult (Math_round smoothed) level (Math_round blinkRate) (toFixed2 ear))
  end.

(** ** Runs of the stateful estimators *)

(** [n] frames of the same face and emotion through the attention steps. *)
Definition attentionFrames (n : nat) (rs : RuntimeState) (fa : FaceAnalysis)
  (emotion : EmotionLabel * Q) : RuntimeState :=
  Nat.iter n (fun r => analyzeAttention r (Some fa) emotion) rs.

(** Calibration frames (attention, blink rate, fatigue, emotion score) fed
    one after the other. *)
Definition collectAll (Math_sqrt : Q -> Q) (rs : RuntimeState)
  (samples : list (Q * Q * Q * Q)) : RuntimeState :=
  fold_left (fun r '(a, b, f, e) => collectCalibration Math_sqrt r a b f e) samples rs.

(** Strictly increasing timestamps, all after [p]. *)
Fixpoint increasing_from (p : Z) (obs : list (Q * Q * Z)) : bool :=
  match obs with
  | [] => true
  | (_, _, t) :: rest => Z.ltb p t && increasing_from t rest
  end.

(** Invariants of the blink detector state. *)

(** Every blink event is the timestamp of a retained frame. *)
Definition events_backed (st : Blink.state) : Prop :=
  Forall (fun t => exists f, In f (Blink.frames st) /\ Blink.timestamp f = t)
    (Blink.blinkEvents st).

(** Strictly increasing timestamps: no repeated event, nothing after [p]. *)
Definition events_ordered (p : Z) (st : Blink.state) : Prop :=
  NoDup (Blink.blinkEvents st) /\ Forall (fun t => (t <= p)%Z) (Blink.blinkEvents st).

(** ** Lemmas on the numeric helpers *)

Lemma Math_round_compat : forall x y, x == y -> Math_round x = Math_round y.
Proof.
  intros x y Hxy; unfold Math_round; f_equal.
  apply Z.le_antisymm; apply Qfloor_resp_le; rewrite Hxy; apply Qle_refl.
Qed.

Lemma Math_round_mono : forall x y, x <= y -> Math_round x <= Math_round y.
Proof.
  intros x y Hxy; unfold Math_round.
  rewrite <- Zle_Qle; apply Qfloor_resp_le.
  apply Qplus_le_compat; [exact Hxy | apply Qle_refl].
Qed.

Lemma Math_round_Z : forall z, Math_round (inject_Z z) = inject_Z z.
Proof.
  intros z; unfold Math_round, Qfloor, inject_Z, Qplus; simpl.
  f_equal.
  replace (z * 2 + 1)%Z with (1 + z * 2)%Z by ring.
  rewrite Z_div_plus_full by lia; reflexivity.
Qed.

(** [Math.round] of a number in [[lo, hi]], [lo] and [hi] integers, is an
    integer of [[lo, hi]]. *)
Lemma Math_round_range : forall x lo hi,
  inject_Z lo <= x -> x <= inject_Z hi ->
  exists n, Math_round x = inject_Z n /\ (lo <= n <= hi)%Z.
Proof.
  intros x lo hi Hlo Hhi; exists (Qfloor (x + (1#2))); split; [reflexivity|].
  split.
  - rewrite <- (Qfloor_Z lo); apply Qfloor_resp_le.
    apply Qle_trans with x; [exact Hlo|].
    rewrite <- (Qplus_0_r x) at 1; apply Qplus_le_compat; [apply Qle_refl|].
    unfold Qle; simpl; lia.
  - assert (Hf := Qfloor_le (x + (1#2))).
    assert (Hb : inject_Z (Qfloor (x + (1 # 2))) < inject_Z hi + 1).
    { apply Qle_lt_trans with (x + (1#2)); [exact Hf|].
      lra. }
    change 1 with (inject_Z 1) in Hb.
    rewrite <- inject_Z_plus in Hb; rewrite <- Zlt_Qlt in Hb; lia.
Qed.


Lemma js_or_num0 : forall q, js_or (Some (JNum q)) 0 == q.
Proof.
  intros q; simpl; destruct (Qeq_bool q 0) eqn:E; [|apply Qeq_refl].
  apply Qeq_bool_iff in E; rewrite E; apply Qeq_refl.
Qed.

Lemma clamp_bounds : forall v lo hi, lo <= hi -> lo <= clamp v lo hi <= hi.
Proof.
  intros v lo hi Hle; unfold clamp.
  destruct (Q.max_spec lo v) as [[H1 H2]|[H1 H2]]; rewrite H2;
  destruct (Q.min_spec hi v) as [[H3 H4]|[H3 H4]];
  destruct (Q.min_spec hi lo) as [[H5 H6]|[H5 H6]];
  first [rewrite H4 | rewrite H6 | idtac]; lra.
Qed.

Lemma clamp_mono : forall x y lo hi, x <= y -> clamp x lo hi <= clamp y lo hi.
Proof.
  intros x y lo hi Hxy; unfold clamp.
  apply Q.min_le_compat_l, Q.max_le_compat_l, Hxy.
Qed.

(** The normalisation of [calculateDeceptionProbability] is [clamp]. *)
Lemma normalizedZ_clamp : forall v, Qmin (Qmax v 0) 1 == clamp v 0 1.
Proof.
  intros v; unfold clamp; rewrite Q.max_comm, Q.min_comm; reflexivity.
Qed.

Lemma deception_fold : forall m,
  fold_left (deception_step m) weights (0, 0) =
  (0 + Qmin (Qmax (zOf m "attention" / 2) 0) 1 * (28#100)
     + Qmin (Qmax (zOf m "blinkRate" / 2) 0) 1 * (22#100)
     + Qmin (Qmax (zOf m "fatigue" / 2) 0) 1 * (16#100)
     + Qmin (Qmax (zOf m "headMotion" / 2) 0) 1 * (18#100)
     + Qmin (Qmax (zOf m "emotionVolatility" / 2) 0) 1 * (16#100),
   0 + (28#100) + (22#100) + (16#100) + (18#100) + (16#100))%string.
Proof. intros m; reflexivity. Qed.

Lemma normalized_facts : forall z,
  Qmin (Qmax (z / 2) 0) 1 == clamp (z / 2) 0 1 /\
  0 <= clamp (z / 2) 0 1 <= 1.
Proof.
  intros z; split; [apply normalizedZ_clamp|].
  apply clamp_bounds; lra.
Qed.

(** [calculateDeceptionProbability] is the spec's weighted formula, for
    every z-score map. *)
Lemma calculateDeceptionProbability_formula : forall m,
  calculateDeceptionProbability m =
  composite_spec (zOf m "attention") (zOf m "blinkRate") (zOf m "fatigue")
                 (zOf m "headMotion") (zOf m "emotionVolatility").
Proof.
  intros [|p m']; [vm_compute; reflexivity|].
  unfold calculateDeceptionProbability; cbv iota beta.
  rewrite deception_fold; cbv iota beta.
  unfold composite_spec; apply Math_round_compat.
  set (m := p :: m').
  destruct (normalized_facts (zOf m "attention")) as [Ha [Ha1 Ha2]].
  destruct (normalized_facts (zOf m "blinkRate")) as [Hb [Hb1 Hb2]].
  destruct (normalized_facts (zOf m "fatigue")) as [Hf [Hf1 Hf2]].
  destruct (normalized_facts (zOf m "headMotion")) as [Hh [Hh1 Hh2]].
  destruct (normalized_facts (zOf m "emotionVolatility")) as [He [He1 He2]].
  revert Ha Ha1 Ha2 Hb Hb1 Hb2 Hf Hf1 Hf2 Hh Hh1 Hh2 He He1 He2.
  generalize (clamp (zOf m "attention" / 2) 0 1) (clamp (zOf m "blinkRate" / 2) 0 1)
    (clamp (zOf m "fatigue" / 2) 0 1) (clamp (zOf m "headMotion" / 2) 0 1)
    (clamp (zOf m "emotionVolatility" / 2) 0 1).
  generalize (Qmin (Qmax (zOf m "attention" / 2) 0) 1) (Qmin (Qmax (zOf m "blinkRate" / 2) 0) 1)
    (Qmin (Qmax (zOf m "fatigue" / 2) 0) 1) (Qmin (Qmax (zOf m "headMotion" / 2) 0) 1)
    (Qmin (Qmax (zOf m "emotionVolatility" / 2) 0) 1).
  intros n1 n2 n3 n4 n5 c1 c2 c3 c4 c5; intros.
  assert (HT : Qmax (0 + (28#100) + (22#100) + (16#100) + (18#100) + (16#100)) 1 == 1)
    by (vm_compute; reflexivity).
  rewrite HT.
  set (P := (0 + n1 * (28 # 100) + n2 * (22 # 100) + n3 * (16 # 100) + n4 * (18 # 100)
             + n5 * (16 # 100)) / 1 * 100).
  assert (HP : P == 100 * ((28 # 100) * c1 + (22 # 100) * c2 + (16 # 100) * c3
                           + (18 # 100) * c4 + (16 # 100) * c5)).
  { unfold P. rewrite Ha, Hb, Hf, Hh, He. field. }
  assert (HP0 : 0 <= P) by (rewrite HP; lra).
  assert (HP1 : P <= 100) by (rewrite HP; lra).
  rewrite (Q.max_l P 0 HP0), (Q.min_l P 100 HP1); exact HP.
Qed.

Lemma half_mono : forall x y, x <= y -> x / 2 <= y / 2.
Proof.
  intros x y H; unfold Qdiv; apply Qmult_le_compat_r; [exact H|].
  unfold Qle; simpl; lia.
Qed.

Lemma composite_spec_mono : forall za zb zf zh ze za' zb' zf' zh' ze',
  za <= za' -> zb <= zb' -> zf <= zf' -> zh <= zh' -> ze <= ze' ->
  composite_spec za zb zf zh ze <= composite_spec za' zb' zf' zh' ze'.
Proof.
  intros za zb zf zh ze za' zb' zf' zh' ze' Ha Hb Hf Hh He.
  unfold composite_spec; apply Math_round_mono.
  assert (Ca := clamp_mono _ _ 0 1 (half_mono _ _ Ha)).
  assert (Cb := clamp_mono _ _ 0 1 (half_mono _ _ Hb)).
  assert (Cf := clamp_mono _ _ 0 1 (half_mono _ _ Hf)).
  assert (Ch := clamp_mono _ _ 0 1 (half_mono _ _ Hh)).
  assert (Ce := clamp_mono _ _ 0 1 (half_mono _ _ He)).
  lra.
Qed.

Lemma composite_spec_range : forall za zb zf zh ze,
  exists n, composite_spec za zb zf zh ze = inject_Z n /\ (0 <= n <= 100)%Z.
Proof.
  intros za zb zf zh ze; unfold composite_spec; apply Math_round_range.
  all: assert (Ba := clamp_bounds (za / 2) 0 1 ltac:(lra)).
  all: assert (Bb := clamp_bounds (zb / 2) 0 1 ltac:(lra)).
  all: assert (Bf := clamp_bounds (zf / 2) 0 1 ltac:(lra)).
  all: assert (Bh := clamp_bounds (zh / 2) 0 1 ltac:(lra)).
  all: assert (Be := clamp_bounds (ze / 2) 0 1 ltac:(lra)).
  all: change (inject_Z 0) with 0; change (inject_Z 100) with 100; lra.
Qed.

Lemma calculateDeceptionProbability_range : forall m,
  exists n, calculateDeceptionProbability m = inject_Z n /\ (0 <= n <= 100)%Z.
Proof.
  intros m; rewrite calculateDeceptionProbability_formula; apply composite_spec_range.
Qed.

(** Monotonicity in one z-score: [zOf] on a [zmap] is the stored value. *)
Ltac zmap_mono :=
  intros; rewrite !calculateDeceptionProbability_formula; unfold zOf; simpl lookup;
  apply composite_spec_mono;
  first [ apply Qle_refl | rewrite !js_or_num0; assumption ].

(** ** Claims *)

(** C1: in every runtime state (before, during or after any calibration,
    whatever baseline the signal processor holds and whatever [Math.sqrt]
    returns), [calculateDeceptionEstimate] returns an integer in [0..100]. *)
Theorem calculateDeceptionEstimate_range : forall Math_sqrt rs,
  exists n, snd (calculateDeceptionEstimate Math_sqrt rs) = inject_Z n
            /\ (0 <= n <= 100)%Z.
Proof.
  intros Math_sqrt rs; unfold calculateDeceptionEstimate; cbn [snd].
  match goal with
  | |- context [calculateDeceptionProbability ?z] =>
      destruct (calculateDeceptionProbability_range z) as [n [Hn Hr]]
  end.
  exists n; rewrite Hn, Math_round_Z; split; [reflexivity | exact Hr].
Qed.

(** C2 (as amended): with no baseline set, the [SignalProcessor] that
    main.ts uses scores against [DEFAULT_BASELINE] (it does not zero the
    z-scores), the composite is an integer in [0..100] and nothing throws;
    only the draft processor of part_001 returns an empty map, scored 0. *)
Theorem no_baseline_scores_against_default : forall s,
  SignalProcessor.calculateZScores (SignalProcessor.mkState None s) =
  SignalProcessor.calculateZScores
    (SignalProcessor.mkState (Some SignalProcessor.DEFAULT_BASELINE) s) /\
  SignalProcessor.isUsingDefaultBaseline (SignalProcessor.mkState None s) = true /\
  (exists n, calculateDeceptionProbability
               (SignalProcessor.calculateZScores (SignalProcessor.mkState None s))
             = inject_Z n /\ (0 <= n <= 100)%Z) /\
  calculateDeceptionProbability
    (SignalProcessorDraft.calculateZScores (SignalProcessorDraft.mkState None s)) = 0.
Proof.
  intros s; split; [reflexivity|]; split; [reflexivity|]; split.
  - apply calculateDeceptionProbability_range.
  - reflexivity.
Qed.

(** C2 counterexample: with no baseline, signals (75, 14, 25, 0, 0) (those
    of the initial runtime state) score 33, not 0; so does the first
    [calculateDeceptionEstimate] of a fresh session. *)
Lemma no_baseline_score_is_33 :
  calculateDeceptionProbability
    (SignalProcessor.calculateZScores
       (SignalProcessor.mkState None (mkSignals 75 14 25 0 0))) = 33 /\
  snd (calculateDeceptionEstimate Qsqrt_floor initialRuntimeState) = 33.
Proof. split; vm_compute; reflexivity. Qed.

(** C4: for every z-score map, the composite is
    [round(100 * sum_k w_k * clamp(z_k/2, 0, 1))] with the weights 0.28,
    0.22, 0.16, 0.18, 0.16 (a missing, zero or NaN entry reads as 0); it is
    0 when all z-scores are 0, and non-decreasing in each z-score with the
    others fixed. *)
Theorem deception_composite_formula : 
  (forall m, calculateDeceptionProbability m =
     composite_spec (zOf m "attention") (zOf m "blinkRate") (zOf m "fatigue")
                    (zOf m "headMotion") (zOf m "emotionVolatility"))%string /\
  calculateDeceptionProbability (zmap 0 0 0 0 0) = 0 /\
  (forall za za' zb zf zh ze, za <= za' ->
     calculateDeceptionProbability (zmap za zb zf zh ze)
     <= calculateDeceptionProbability (zmap za' zb zf zh ze)) /\
  (forall za zb zb' zf zh ze, zb <= zb' ->
     calculateDeceptionProbability (zmap za zb zf zh ze)
     <= calculateDeceptionProbability (zmap za zb' zf zh ze)) /\
  (forall za zb zf zf' zh ze, zf <= zf' ->
     calculateDeceptionProbability (zmap za zb zf zh ze)
     <= calculateDeceptionProbability (zmap za zb zf' zh ze)) /\
  (forall za zb zf zh zh' ze, zh <= zh' ->
     calculateDeceptionProbability (zmap za zb zf zh ze)
     <= calculateDeceptionProbability (zmap za zb zf zh' ze)) /\
  (forall za zb zf zh ze ze', ze <= ze' ->
     calculateDeceptionProbability (zmap za zb zf zh ze)
     <= calculateDeceptionProbability (zmap za zb zf zh ze')).
Proof.
  split; [exact calculateDeceptionProbability_formula|].
  split; [vm_compute; reflexivity|].
  repeat split; zmap_mono.
Qed.

(** ** Rolling buffers *)

Lemma lastn_length : forall {X : Type} n (l : list X),
  List.length (lastn n l) = Nat.min (List.length l) n.
Proof. intros X n l; unfold lastn; rewrite length_skipn; lia. Qed.

Lemma lastn_short : forall {X : Type} n (l : list X),
  (List.length l <= n)%nat -> lastn n l = l.
Proof.
  intros X n l H; unfold lastn; replace (List.length l - n)%nat with 0%nat by lia.
  reflexivity.
Qed.

Lemma lastn_app_long : forall {X : Type} n (p q : list X),
  (n <= List.length q)%nat -> lastn n (p ++ q) = lastn n q.
Proof.
  intros X n p q H; unfold lastn; rewrite length_app, skipn_app.
  rewrite (skipn_all2 p) by lia; simpl; f_equal; lia.
Qed.

Lemma lastn_lastn_app : forall {X : Type} n (l m : list X),
  lastn n (lastn n l ++ m) = lastn n (l ++ m).
Proof.
  intros X n l m.
  destruct (Nat.le_gt_cases (List.length l) n) as [Hle|Hgt].
  - rewrite (lastn_short n l Hle); reflexivity.
  - set (k := (List.length l - n)%nat).
    replace (l ++ m) with (firstn k l ++ (skipn k l ++ m))
      by (rewrite app_assoc, firstn_skipn; reflexivity).
    rewrite (lastn_app_long n (firstn k l)); [reflexivity|].
    rewrite length_app, length_skipn; lia.
Qed.

Lemma pushLimited_lastn : forall {X : Type} C (l : list X) x,
  (List.length l <= C)%nat -> pushLimited l x C = lastn C (l ++ [x]).
Proof.
  intros X C l x H; unfold pushLimited, lastn; rewrite length_app; simpl.
  destruct (Nat.ltb_spec C (List.length l + 1)).
  - replace (List.length l + 1 - C)%nat with 1%nat by lia.
    destruct (l ++ [x]); reflexivity.
  - replace (List.length l + 1 - C)%nat with 0%nat by lia; reflexivity.
Qed.

Lemma pushAll_lastn : forall {X : Type} C (xs b : list X),
  (List.length b <= C)%nat -> pushAll C b xs = lastn C (b ++ xs).
Proof.
  intros X C xs; induction xs as [|x xs IH]; intros b Hb.
  - rewrite app_nil_r, lastn_short by exact Hb; reflexivity.
  - change (pushAll C b (x :: xs)) with (pushAll C (pushLimited b x C) xs).
    rewrite (pushLimited_lastn C b x Hb).
    rewrite IH by (rewrite lastn_length; lia).
    rewrite lastn_lastn_app, <- app_assoc; reflexivity.
Qed.

(** ** Personality *)

Lemma clampLikert_int : forall v,
  exists k, clampLikert v == inject_Z k /\ (1 <= k <= 5)%Z.
Proof.
  intros v; unfold clampLikert, Math_round.
  set (z := Qfloor (v + (1 # 2))).
  destruct (Z_le_gt_dec z 1) as [H1|H1].
  - assert (Hq : inject_Z z <= 1) by (change 1 with (inject_Z 1); rewrite <- Zle_Qle; lia).
    exists 1%Z; split; [|lia].
    rewrite (Q.max_l 1 (inject_Z z) Hq), Q.min_r; [reflexivity | unfold Qle; simpl; lia].
  - assert (Hq : 1 <= inject_Z z) by (change 1 with (inject_Z 1); rewrite <- Zle_Qle; lia).
    destruct (Z_le_gt_dec z 5) as [H5|H5].
    + assert (Hq5 : inject_Z z <= 5) by (change 5 with (inject_Z 5); rewrite <- Zle_Qle; lia).
      exists z; split; [|lia].
      rewrite (Q.max_r 1 (inject_Z z) Hq), (Q.min_r 5 (inject_Z z) Hq5); reflexivity.
    + assert (Hq5 : 5 <= inject_Z z) by (change 5 with (inject_Z 5); rewrite <- Zle_Qle; lia).
      exists 5%Z; split; [|lia].
      rewrite (Q.max_r 1 (inject_Z z) Hq), (Q.min_l 5 (inject_Z z) Hq5); reflexivity.
Qed.

Lemma clampLikert_Z : forall k, (1 <= k <= 5)%Z -> clampLikert (inject_Z k) == inject_Z k.
Proof.
  intros k Hk; unfold clampLikert; rewrite Math_round_Z.
  assert (H1 : 1 <= inject_Z k) by (change 1 with (inject_Z 1); rewrite <- Zle_Qle; lia).
  assert (H5 : inject_Z k <= 5) by (change 5 with (inject_Z 5); rewrite <- Zle_Qle; lia).
  rewrite (Q.max_r 1 (inject_Z k) H1), (Q.min_r 5 (inject_Z k) H5); reflexivity.
Qed.

Lemma likert_trait_Z : forall x y,
  (1 <= x <= 5)%Z -> (1 <= y <= 5)%Z ->
  likert_trait ((clampLikert (inject_Z x) + invert (clampLikert (inject_Z y))) / 2)
               (inject_Z x) (inject_Z y).
Proof.
  intros x y Hx Hy.
  assert (Qx1 : 1 <= inject_Z x) by (change 1 with (inject_Z 1); rewrite <- Zle_Qle; lia).
  assert (Qx5 : inject_Z x <= 5) by (change 5 with (inject_Z 5); rewrite <- Zle_Qle; lia).
  assert (Qy1 : 1 <= inject_Z y) by (change 1 with (inject_Z 1); rewrite <- Zle_Qle; lia).
  assert (Qy5 : inject_Z y <= 5) by (change 5 with (inject_Z 5); rewrite <- Zle_Qle; lia).
  assert (Hcx := clampLikert_Z x Hx); assert (Hcy := clampLikert_Z y Hy).
  set (w := (clampLikert (inject_Z x) + invert (clampLikert (inject_Z y))) / 2).
  assert (Hw : w == (inject_Z x + (6 - inject_Z y)) * (1#2)).
  { unfold w, invert, Qdiv; rewrite Hcx, Hcy; reflexivity. }
  assert (Hw1 : 1 <= w) by (rewrite Hw; lra).
  assert (Hw5 : w <= 5) by (rewrite Hw; lra).
  unfold likert_trait; split; [|split; [split; assumption|]].
  - rewrite Hw; unfold invert, Qdiv; reflexivity.
  - unfold traitToPercent; apply Math_round_compat.
    rewrite (Q.max_r 1 w Hw1), (Q.min_r 5 w Hw5); reflexivity.
Qed.

(** C9: pushing any sequence of [n] values one by one into an empty
    buffer with [pushLimited] (or [pushEmotionLimited]) of capacity [C]
    (30 for attention/fatigue, 40 for emotions, 45 for ages, 60 for EAR)
    leaves [min(n, C)] values, exactly the last [min(n, C)] pushed, oldest
    first. *)
Theorem pushLimited_keeps_last : forall {X : Type} (C : nat) (xs : list X),
  List.length (pushAll C [] xs) = Nat.min (List.length xs) C /\
  (List.length (pushAll C [] xs) <= C)%nat /\
  pushAll C [] xs = lastn C xs.
Proof.
  intros X C xs.
  assert (H : pushAll C [] xs = lastn C xs)
    by (rewrite pushAll_lastn by (simpl; lia); reflexivity).
  rewrite H, lastn_length; split; [reflexivity|]; split; [lia | reflexivity].
Qed.

(** C6: [computeBigFive] throws exactly when the answer list does not have
    10 elements, and returns a profile on every 10-element list. *)
Theorem computeBigFive_throws_iff_not_10 : forall answers,
  ((exists msg, computeBigFive answers = Throw msg) <-> List.length answers <> 10%nat) /\
  (List.length answers = 10%nat -> exists b, computeBigFive answers = Ok b).
Proof.
  intros answers; unfold computeBigFive.
  destruct (Nat.eqb_spec (List.length answers) 10) as [H|H]; simpl.
  - split; [split; [intros [msg Hm]; discriminate | intros Hn; contradiction]|].
    intros _; eexists; reflexivity.
  - split; [split; [intros _; exact H | intros _; eexists; reflexivity]|].
    intros Hn; contradiction.
Qed.

(** C7: on ten Likert answers in [1..5], each trait of [computeBigFive] is
    the mean of its item and its inverted ([6 - answer]) reverse-coded item,
    lies in [[1, 5]], and [traitToPercent] shows it as
    [round((value - 1) / 4 * 100)]. *)
Theorem computeBigFive_likert : forall answers : list Z,
  List.length answers = 10%nat ->
  Forall (fun a => (1 <= a <= 5)%Z) answers ->
  let a i := inject_Z (nth i answers 0%Z) in
  exists b, computeBigFive (map inject_Z answers) = Ok b /\
    likert_trait (O b) (a 0%nat) (a 1%nat) /\ likert_trait (C b) (a 2%nat) (a 3%nat) /\
    likert_trait (E b) (a 4%nat) (a 5%nat) /\ likert_trait (A b) (a 6%nat) (a 7%nat) /\
    likert_trait (N b) (a 8%nat) (a 9%nat).
Proof.
  intros answers Hlen Hr a.
  rewrite Forall_forall in Hr.
  do 10 (destruct answers as [|? answers]; [discriminate Hlen|]).
  destruct answers; [|discriminate Hlen].
  unfold a; simpl nth.
  eexists; split; [reflexivity|].
  cbn [O C E A N].
  repeat split; apply likert_trait_Z; apply Hr; simpl; tauto.
Qed.

(** C7 witness: [5,1,5,1,5,1,5,1,5,1] gives every trait 5 and ten 3's
    give every trait 3. *)
Lemma computeBigFive_likert_witness :
  (exists b, computeBigFive (map inject_Z [5;1;5;1;5;1;5;1;5;1]%Z) = Ok b /\
             O b == 5 /\ C b == 5 /\ E b == 5 /\ A b == 5 /\ N b == 5) /\
  (exists b, computeBigFive (map inject_Z [3;3;3;3;3;3;3;3;3;3]%Z) = Ok b /\
             O b == 3 /\ C b == 3 /\ E b == 3 /\ A b == 3 /\ N b == 3).
Proof.
  split.
  - destruct (computeBigFive_likert [5;1;5;1;5;1;5;1;5;1]%Z eq_refl
                ltac:(repeat constructor; lia))
      as (b & Hb & [HO _] & [HC _] & [HE _] & [HA _] & [HN _]).
    exists b; split; [exact Hb|].
    rewrite HO, HC, HE, HA, HN; repeat split; reflexivity.
  - destruct (computeBigFive_likert [3;3;3;3;3;3;3;3;3;3]%Z eq_refl
                ltac:(repeat constructor; lia))
      as (b & Hb & [HO _] & [HC _] & [HE _] & [HA _] & [HN _]).
    exists b; split; [exact Hb|].
    rewrite HO, HC, HE, HA, HN; repeat split; reflexivity.
Defined.

(** C10: on every 10-element list, [computeBigFive] first maps
    [clampLikert] (round to the nearest integer, clamp into [[1, 5]]) over
    the answers and scores the result, so out-of-range or fractional answers
    never throw: 0 reads as 1, 7 as 5 and 3.6 as 4. *)
Theorem computeBigFive_sanitizes : forall answers,
  List.length answers = 10%nat ->
  let s i := nth i (map clampLikert answers) 0 in
  computeBigFive answers =
    Ok (mkBigFive ((s 0%nat + invert (s 1%nat)) / 2) ((s 2%nat + invert (s 3%nat)) / 2)
                  ((s 4%nat + invert (s 5%nat)) / 2) ((s 6%nat + invert (s 7%nat)) / 2)
                  ((s 8%nat + invert (s 9%nat)) / 2)) /\
  Forall (fun v => exists k, v == inject_Z k /\ (1 <= k <= 5)%Z) (map clampLikert answers) /\
  clampLikert 0 == 1 /\ clampLikert 7 == 5 /\ clampLikert (18#5) == 4.
Proof.
  intros answers Hlen s; split.
  - unfold computeBigFive; rewrite Hlen; reflexivity.
  - split; [|repeat split; vm_compute; reflexivity].
    apply Forall_forall; intros v Hv; apply in_map_iff in Hv.
    destruct Hv as [x [Hx _]]; subst v; apply clampLikert_int.
Qed.

(** C10 witness: the answers [0, 7, 3.6, 3, ..., 3] are scored, no throw. *)
Lemma computeBigFive_sanitizes_witness :
  exists b, computeBigFive [0; 7; 18#5; 3; 3; 3; 3; 3; 3; 3] = Ok b.
Proof.
  destruct (computeBigFive_sanitizes [0; 7; 18#5; 3; 3; 3; 3; 3; 3; 3] eq_refl) as [H _].
  eexists; exact H.
Defined.

(** ** Calibration *)

Lemma sum_repeat : forall c n acc,
  fold_left Qplus (repeat c n) acc == acc + inject_Z (Z.of_nat n) * c.
Proof.
  intros c n; induction n as [|n IH]; intros acc.
  - simpl; ring.
  - cbn [repeat fold_left].
    rewrite IH, Nat2Z.inj_succ, <- Z.add_1_r, inject_Z_plus; ring.
Qed.

Lemma sqdev_repeat : forall c m n acc,
  fold_left (fun a b => a + (b - m) * (b - m)) (repeat c n) acc
  == acc + inject_Z (Z.of_nat n) * ((c - m) * (c - m)).
Proof.
  intros c m n; induction n as [|n IH]; intros acc.
  - simpl; ring.
  - cbn [repeat fold_left].
    rewrite IH, Nat2Z.inj_succ, <- Z.add_1_r, inject_Z_plus; ring.
Qed.

(** [calculateStats] on a constant, non-empty sample: mean [c], std 0.1. *)
Lemma calculateStats_const : forall (Math_sqrt : Q -> Q),
  (forall q, q == 0 -> Math_sqrt q == 0) ->
  forall c n,
  fst (calculateStats Math_sqrt (repeat c (S n))) == c /\
  snd (calculateStats Math_sqrt (repeat c (S n))) = 1#10.
Proof.
  intros Math_sqrt Hsqrt c n.
  change (repeat c (S n)) with (c :: repeat c n).
  unfold calculateStats; cbv zeta; cbn [fst snd].
  set (l := c :: repeat c n).
  change l with (repeat c (S n)); rewrite repeat_length.
  set (N := inject_Z (Z.of_nat (S n))).
  assert (HN : ~ N == 0).
  { unfold N; change 0 with (inject_Z 0); rewrite inject_Z_injective; lia. }
  assert (Hmean : fold_left Qplus (repeat c (S n)) 0 / N == c).
  { rewrite sum_repeat; fold N; field; exact HN. }
  split; [exact Hmean|].
  assert (Hvar : fold_left (fun a b => a + (b - fold_left Qplus (repeat c (S n)) 0 / N)
                                        * (b - fold_left Qplus (repeat c (S n)) 0 / N))
                   (repeat c (S n)) 0 / N == 0).
  { rewrite sqdev_repeat; fold N; rewrite Hmean; field; exact HN. }
  apply Hsqrt in Hvar.
  unfold js_or; apply Qeq_bool_iff in Hvar; rewrite Hvar; reflexivity.
Qed.

(** C3 (code defect): calibration installs, wholesale, the baseline built
    from the accumulators ([calculateStats]: constant attention 80 gives
    mean 80 and std 0.1), but that baseline has no [emotionVolatilityStd],
    so after every calibration the emotion-volatility z-score is [NaN]. *)
Theorem calibration_baseline_lacks_emotionVolatilityStd :
  forall (Math_sqrt : Q -> Q),
  (forall q, q == 0 -> Math_sqrt q == 0) ->
  forall rs n, cal_attention (calibrationData rs) = repeat 80 (S n) ->
  let b := calibrationBaseline Math_sqrt (calibrationData rs) in
  SignalProcessor.baseline (signalProcessor (finishCalibration Math_sqrt rs)) = Some b /\
  SignalProcessor.attentionMean b == 80 /\
  SignalProcessor.attentionStd b = 1#10 /\
  SignalProcessor.emotionVolatilityStd b = None /\
  (forall s, lookup "emotionVolatility"
               (SignalProcessor.calculateZScores
                  (SignalProcessor.updateSignals
                     (signalProcessor (finishCalibration Math_sqrt rs)) s))
             = Some JNaN)%string.
Proof.
  intros Math_sqrt Hsqrt rs n Hcal b.
  destruct (calculateStats_const Math_sqrt Hsqrt 80 n) as [Hm Hs].
  split; [reflexivity|].
  unfold b, calibrationBaseline; cbn [SignalProcessor.attentionMean
    SignalProcessor.attentionStd SignalProcessor.emotionVolatilityStd].
  rewrite Hcal; split; [exact Hm|]; split; [exact Hs|]; split; [reflexivity|].
  intros s; reflexivity.
Qed.

(** C3: a reachable failing input, three calibration frames at attention
    80 after a calibration start. *)
Lemma calibration_constant_80 :
  exists b,
    SignalProcessor.baseline
      (signalProcessor (finishCalibration Qsqrt_floor calibration80_state)) = Some b /\
    SignalProcessor.attentionMean b == 80 /\ SignalProcessor.attentionStd b = 1#10 /\
    SignalProcessor.emotionVolatilityStd b = None.
Proof.
  assert (Hsq : forall q, q == 0 -> Qsqrt_floor q == 0).
  { intros [qn qd] Hq; unfold Qeq in Hq; simpl in Hq.
    assert (qn = 0%Z) by lia; subst qn; reflexivity. }
  destruct (calibration_baseline_lacks_emotionVolatilityStd Qsqrt_floor Hsq
               calibration80_state 2 eq_refl)
    as (Hb & Hm & Hs & He & _).
  eexists; split; [exact Hb|]; split; [exact Hm|]; split; [exact Hs | exact He].
Defined.

(** ** Attention *)

(** C5 (as amended): on a frame with face features, [gazingAway] is
    [attentionLevel < 55] for the level [estimateAttention] returns, the
    EMA-smoothed (alpha 0.15) attention, rounded and clamped to [[20, 99]]. *)
Theorem gazingAway_is_smoothed_level_below_55 : forall rs fa emotion,
  snd (curAttention (analyzeAttention rs (Some fa) emotion)) =
  Qlt_bool (clamp (Math_round (applyEMA (attentionRaw fa) (smoothedAttention rs) (15#100)))
                  20 99) 55.
Proof. intros rs fa emotion; reflexivity. Qed.

(** C5 counterexample: first frame, gaze fully away: the unsmoothed level
    is 40 (below 55) but the smoothed level is 70, so [gazingAway] is
    false. *)
Lemma gazingAway_not_from_unsmoothed :
  attentionRaw (mkFaceAnalysis 1 0 0 None None) == 40 /\
  snd (curAttention (analyzeAttention initialRuntimeState
                       (Some (mkFaceAnalysis 1 0 0 None None)) (Neutral, 1#2))) = false.
Proof. split; vm_compute; reflexivity. Qed.

(** ** Blink rate *)

(** C8 (as amended): one [update] keeps the frames and blink events of the
    trailing 60000 ms, records an event at [now] on an open-to-closed
    transition between the last two kept frames, and reports
    [round(count / max(1000, t_last - t_first) * 60000)] over the kept
    frames (0 with fewer than two). *)
Theorem blink_update_rate : forall st ear mar now,
  let frames' :=
    filter (fun f => Z.ltb (now - Blink.timestamp f) Blink.windowSize)
      (Blink.frames st ++ [Blink.mkFrame now (negb (Qle_bool ear Blink.EAR_THRESHOLD))
                                              (negb (Qle_bool mar Blink.MAR_THRESHOLD))]) in
  let events' :=
    filter (fun t => Z.ltb (now - t) Blink.windowSize) (Blink.blinkEvents st)
    ++ (if Blink.closesAtEnd frames' then [now] else []) in
  let n := List.length frames' in
  Blink.frames (fst (Blink.update st ear mar now)) = frames' /\
  Blink.blinkEvents (fst (Blink.update st ear mar now)) = events' /\
  Forall (fun f => (now - Blink.timestamp f < 60000)%Z) frames' /\
  Forall (fun t => (now - t < 60000)%Z) events' /\
  Blink.blinks (snd (Blink.update st ear mar now)) =
    if Nat.ltb 1 n
    then Math_round (inject_Z (Z.of_nat (List.length events'))
                     / inject_Z (Z.max 1000 (Blink.timestamp (nth (n - 1) frames' Blink.dummyFrame)
                                             - Blink.timestamp (nth 0 frames' Blink.dummyFrame)))
                     * 60000)
    else 0.
Proof.
  intros st ear mar now frames' events' n.
  assert (Hf : Forall (fun f => (now - Blink.timestamp f < 60000)%Z) frames').
  { apply Forall_forall; intros f Hin; unfold frames' in Hin.
    apply filter_In in Hin; destruct Hin as [_ Hin]; apply Z.ltb_lt in Hin; exact Hin. }
  split; [reflexivity|]; split.
  { unfold events'; unfold Blink.update; cbv zeta; cbn [fst Blink.blinkEvents].
    fold frames'; destruct (Blink.closesAtEnd frames'); [reflexivity|].
    rewrite app_nil_r; reflexivity. }
  split; [exact Hf|]; split.
  - unfold events'; apply Forall_app; split.
    + apply Forall_forall; intros t Hin; apply filter_In in Hin.
      destruct Hin as [_ Hin]; apply Z.ltb_lt in Hin; exact Hin.
    + destruct (Blink.closesAtEnd frames'); constructor; [lia | constructor].
  - unfold Blink.update; cbv zeta; cbn [snd Blink.blinks]; fold frames'.
    unfold Blink.elapsedWindowMs; fold n.
    replace (if Blink.closesAtEnd frames'
             then filter (fun t => (now - t <? Blink.windowSize)%Z) (Blink.blinkEvents st) ++ [now]
             else filter (fun t => (now - t <? Blink.windowSize)%Z) (Blink.blinkEvents st))
      with events'
      by (unfold events'; destruct (Blink.closesAtEnd frames'); [|rewrite app_nil_r]; reflexivity).
    destruct (Nat.ltb 1 n); [|reflexivity].
    replace (0 <? Z.max 1000 _)%Z with true by (symmetry; apply Z.ltb_lt; lia).
    reflexivity.
Qed.

(** C8 counterexample: the same alternating eye (a blink at every odd
    second) fed at 1 frame/s and at 2 frames/s up to t = 61 s yields the
    same 30 blink events, but the reported rate is 31 at 1 frame/s and 30
    at 2 frames/s. *)
Lemma blink_rate_depends_on_frame_rate :
  Blink.blinkEvents (fst (Blink.run Blink.init (blink_feed 1000 62))) =
  Blink.blinkEvents (fst (Blink.run Blink.init (blink_feed 500 123))) /\
  List.length (Blink.blinkEvents (fst (Blink.run Blink.init (blink_feed 1000 62)))) = 30%nat /\
  map Blink.blinks (lastn 1 (snd (Blink.run Blink.init (blink_feed 1000 62)))) = [31] /\
  map Blink.blinks (lastn 1 (snd (Blink.run Blink.init (blink_feed 500 123)))) = [30].
Proof.
  split; [vm_compute; reflexivity|].
  split; [vm_compute; reflexivity|].
  split; vm_compute; reflexivity.
Qed.

(** ** Further properties of the scoring and analysis code *)

(** *** Helpers *)











(** *** Personality display *)

(** X: [traitToPercent] shows every number, in or out of the Likert range,
    as an integer percent in [0..100], and never ranks a lower trait value
    above a higher one. *)
Theorem traitToPercent_range_mono :
  (forall v, exists n, traitToPercent v = inject_Z n /\ (0 <= n <= 100)%Z) /\
  (forall v w, v <= w -> traitToPercent v <= traitToPercent w).
Proof.
  split.
  - intros v; unfold traitToPercent.
    change (Qmin 5 (Qmax 1 v)) with (clamp v 1 5).
    assert (B := clamp_bounds v 1 5 ltac:(lra)).
    assert (H25 : (clamp v 1 5 - 1) / 4 * 100 == (clamp v 1 5 - 1) * 25) by field.
    apply Math_round_range; change (inject_Z 0) with 0; change (inject_Z 100) with 100;
      rewrite H25; lra.
  - intros v w Hvw; unfold traitToPercent; apply Math_round_mono.
    change (Qmin 5 (Qmax 1 v)) with (clamp v 1 5).
    change (Qmin 5 (Qmax 1 w)) with (clamp w 1 5).
    assert (M := clamp_mono v w 1 5 Hvw).
    assert (Hv : (clamp v 1 5 - 1) / 4 * 100 == (clamp v 1 5 - 1) * 25) by field.
    assert (Hw : (clamp w 1 5 - 1) / 4 * 100 == (clamp w 1 5 - 1) * 25) by field.
    rewrite Hv, Hw; lra.
Qed.

(** *** Emotion volatility *)

Lemma transitions_le : forall l, (transitions l <= List.length l - 1)%nat.
Proof.
  induction l as [|a r IH]; [simpl; lia|].
  destruct r as [|b r']; [simpl; lia|].
  change (transitions (a :: b :: r')) with
    ((if EmotionLabel_beq b a then 0 else 1) + transitions (b :: r'))%nat.
  simpl List.length in *.
  destruct (EmotionLabel_beq b a); lia.
Qed.

Lemma EmotionLabel_beq_refl : forall l, EmotionLabel_beq l l = true.
Proof. intros []; reflexivity. Qed.

Lemma transitions_repeat : forall l n, transitions (repeat l n) = 0%nat.
Proof.
  intros l n; induction n as [|[|n] IH]; [reflexivity | reflexivity |].
  change (repeat l (S (S n))) with (l :: repeat l (S n)).
  change (transitions (l :: repeat l (S n))) with
    ((if EmotionLabel_beq l l then 0 else 1) + transitions (repeat l (S n)))%nat.
  rewrite EmotionLabel_beq_refl, IH; reflexivity.
Qed.

Lemma skipn_repeat' : forall {X : Type} (x : X) k n,
  skipn k (repeat x n) = repeat x (n - k).
Proof.
  intros X x k; induction k as [|k IH]; intros [|n]; simpl;
    [f_equal; lia | reflexivity | reflexivity | apply IH].
Qed.

(** X: the emotion volatility that [calculateDeceptionEstimate] feeds to
    the signal processor (label changes per adjacent pair over the last 20
    stable emotions) always lies in [[0, 1]], and is 0 while the emotion
    does not change. *)
Theorem emotionVolatility_range : forall history,
  0 <= emotionVolatilityOf history <= 1 /\
  (forall l n, emotionVolatilityOf (repeat l n) == 0).
Proof.
  intros history; split.
  - unfold emotionVolatilityOf; set (r := lastn 20 history).
    destruct r as [|x r']; [lra|].
    set (l := x :: r').
    destruct (Nat.ltb_spec 1 (List.length l)) as [Hlt|Hle]; [|lra].
    assert (Ht := transitions_le l).
    assert (Hpos : 0 < inject_Z (Z.of_nat (List.length l - 1))).
    { change 0 with (inject_Z 0); rewrite <- Zlt_Qlt; lia. }
    split.
    + apply Qle_shift_div_l; [exact Hpos|].
      rewrite Qmult_0_l; change 0 with (inject_Z 0); rewrite <- Zle_Qle; lia.
    + apply Qle_shift_div_r; [exact Hpos|]; rewrite Qmult_1_l.
      rewrite <- Zle_Qle; lia.
  - intros l n; unfold emotionVolatilityOf, lastn.
    rewrite repeat_length, skipn_repeat', transitions_repeat.
    destruct (n - (n - 20))%nat as [|m]; [reflexivity|].
    rewrite repeat_length.
    destruct (Nat.ltb 1 (S m)); [|reflexivity].
    unfold Qdiv; apply Qmult_0_l.
Qed.

(** *** Signal processor *)


Lemma zscore_mono : forall v v' m s f, 0 < f ->
  Qabs (v - m) <= Qabs (v' - m) ->
  SignalProcessor.zscore v m s f <= SignalProcessor.zscore v' m s f.
Proof.
  intros v v' m s f Hf H; unfold SignalProcessor.zscore, Qdiv.
  apply Qmult_le_compat_r; [exact H|].
  apply Qinv_le_0_compat.
  apply Qle_trans with f; [lra | apply Q.le_max_r].
Qed.


(** X: moving any signal further from the baseline mean (in absolute
    value) never lowers the deception score, whatever baseline is held. *)
Theorem score_monotone_in_distance : forall sp s s',
  let b := SignalProcessor.getBaseline sp in
  Qabs (attention s - SignalProcessor.attentionMean b)
    <= Qabs (attention s' - SignalProcessor.attentionMean b) ->
  Qabs (blinkRate s - SignalProcessor.blinkRateMean b)
    <= Qabs (blinkRate s' - SignalProcessor.blinkRateMean b) ->
  Qabs (fatigue s - SignalProcessor.fatigueMean b)
    <= Qabs (fatigue s' - SignalProcessor.fatigueMean b) ->
  Qabs (headMotion s - SignalProcessor.headMotionMean b)
    <= Qabs (headMotion s' - SignalProcessor.headMotionMean b) ->
  Qabs (emotionVolatility s - SignalProcessor.emotionVolatilityMean b)
    <= Qabs (emotionVolatility s' - SignalProcessor.emotionVolatilityMean b) ->
  calculateDeceptionProbability
    (SignalProcessor.calculateZScores (SignalProcessor.updateSignals sp s))
  <= calculateDeceptionProbability
       (SignalProcessor.calculateZScores (SignalProcessor.updateSignals sp s')).
Proof.
  intros sp s s' b Ha Hb Hf Hh He.
  rewrite !calculateDeceptionProbability_formula; unfold zOf.
  unfold SignalProcessor.calculateZScores, SignalProcessor.updateSignals.
  cbn [SignalProcessor.baseline SignalProcessor.currentSignals].
  unfold b, SignalProcessor.getBaseline in *.
  destruct (SignalProcessor.baseline sp) as [b0|]; simpl lookup;
  apply composite_spec_mono; rewrite ?js_or_num0; try (apply zscore_mono; [lra | assumption]).
  destruct (SignalProcessor.emotionVolatilityStd b0);
    [rewrite !js_or_num0; apply zscore_mono; [lra | assumption] | apply Qle_refl].
Qed.

(** A witness: from the default baseline's means to signals further away. *)
Lemma score_monotone_in_distance_witness :
  calculateDeceptionProbability
    (SignalProcessor.calculateZScores
       (SignalProcessor.updateSignals SignalProcessor.init (mkSignals 75 15 25 5 (15#100))))
  <= calculateDeceptionProbability
       (SignalProcessor.calculateZScores
          (SignalProcessor.updateSignals SignalProcessor.init (mkSignals 50 20 30 5 (1#2)))).
Proof.
  apply score_monotone_in_distance; apply Qle_bool_imp_le; vm_compute; reflexivity.
Defined.

(** *** Attention *)





(** X: [attentionRaw] lies in [[0, 100]] for every face, and feeding the
    same face for [n] frames brings the smoothed attention geometrically
    towards it: the gap shrinks by the factor 0.85 per frame. *)
Theorem attention_smoothing_converges : forall n rs fa emotion,
  0 <= attentionRaw fa <= 100 /\
  smoothedAttention (attentionFrames n rs fa emotion) - attentionRaw fa
    == (17#20) ^ Z.of_nat n * (smoothedAttention rs - attentionRaw fa).
Proof.
  intros n rs fa emotion; split.
  - unfold attentionRaw; cbv zeta.
    match goal with |- context [clamp ?x 0 1] =>
      assert (B := clamp_bounds x 0 1 ltac:(lra)) end.
    lra.
  - induction n as [|n IH].
    + change ((17#20) ^ Z.of_nat 0) with 1; unfold attentionFrames; change (Nat.iter 0 _ rs) with rs; ring.
    + unfold attentionFrames in *; rewrite Nat.iter_succ.
      set (r := Nat.iter n (fun r => analyzeAttention r (Some fa) emotion) rs) in *.
      change (smoothedAttention (analyzeAttention r (Some fa) emotion))
        with (applyEMA (attentionRaw fa) (smoothedAttention r) (15#100)).
      rewrite Nat2Z.inj_succ, <- Z.add_1_r, Qpower_plus by (unfold Qeq; simpl; lia).
      change ((17#20) ^ 1) with (17#20).
      unfold applyEMA.
      setoid_replace ((15 # 100) * attentionRaw fa + (1 - (15 # 100)) * smoothedAttention r
                      - attentionRaw fa)
        with ((17#20) * (smoothedAttention r - attentionRaw fa)) by ring.
      rewrite IH; ring.
Qed.

(** X: with no face detected, [estimateAttention] leaves the smoothed
    attention untouched and returns a level in [[65, 75]]: 75 less a penalty
    of at most 10 for a frightened or angry emotion and at most 7 for a sad
    one, and exactly 75 for any other emotion. *)
Theorem estimateAttention_no_face : forall smoothed emotion,
  fst (estimateAttention smoothed None emotion) = smoothed /\
  65 <= snd (estimateAttention smoothed None emotion) <= 75 /\
  match fst emotion with
  | Asustado | Enojado => 65 <= snd (estimateAttention smoothed None emotion)
  | Triste => 68 <= snd (estimateAttention smoothed None emotion)
  | _ => snd (estimateAttention smoothed None emotion) == 75
  end.
Proof.
  intros smoothed [label score]; unfold estimateAttention; cbn [fst snd].
  split; [reflexivity|].
  assert (K : forall p, 0 <= p <= 10 -> clamp (75 - p) 20 99 == 75 - p).
  { intros p Hp; unfold clamp.
    rewrite Q.max_r by lra; rewrite Q.min_r by lra; reflexivity. }
  destruct label;
    try (rewrite (K 0) by lra; split; [lra | reflexivity]).
  - assert (B := clamp_bounds (score * 7) 0 7 ltac:(lra)).
    rewrite K by lra; split; lra.
  - assert (B := clamp_bounds (score * 10) 0 10 ltac:(lra)).
    rewrite K by lra; split; lra.
  - assert (B := clamp_bounds (score * 10) 0 10 ltac:(lra)).
    rewrite K by lra; split; lra.
Qed.

(** *** Emotion fusion *)

(** X: [combineEmotionSignals] always returns one of the two normalized
    input labels (the model's, or the face analyzer's when there is one),
    with a score in [[0.35, 0.95]], and in [[0.4, 0.95]] whenever a face
    emotion was supplied. *)
Theorem combineEmotionSignals_bounds : forall faceEmotion modelEmotion,
  (fst (combineEmotionSignals faceEmotion modelEmotion)
     = normalizeEmotionLabel (er_label modelEmotion) \/
   exists fe, faceEmotion = Some fe /\
     fst (combineEmotionSignals faceEmotion modelEmotion) = normalizeEmotionLabel (er_label fe)) /\
  35#100 <= snd (combineEmotionSignals faceEmotion modelEmotion) <= 95#100 /\
  match faceEmotion with
  | Some _ => 4#10 <= snd (combineEmotionSignals faceEmotion modelEmotion)
  | None => True
  end.
Proof.
  intros [fe|] me; unfold combineEmotionSignals.
  - cbv zeta.
    destruct (Qlt_bool (clamp (er_score fe) (35 # 100) (95 # 100) + (12 # 100))
                (clamp (er_score me) (35 # 100) (95 # 100)));
    repeat match goal with
    | |- context [if ?c then _ else _] => destruct c
    end; cbn [fst snd];
    (split; [first [left; reflexivity | right; exists fe; split; reflexivity]|]);
    match goal with |- context [clamp ?x ?lo ?hi] =>
      assert (B := clamp_bounds x lo hi ltac:(lra)) end;
    split; lra.
  - cbn [fst snd]; split; [left; reflexivity|].
    assert (B := clamp_bounds (er_score me) (35#100) (95#100) ltac:(lra)).
    split; [exact B | exact I].
Qed.

(** *** Stable emotion *)









(** X: [updateStableEmotion] returns a score in [[0.35, 0.92]] for every
    input (0.65 when the accumulated total is not positive). *)
Theorem updateStableEmotion_score_range : forall scores rawLabel rawScore,
  35#100 <= snd (snd (updateStableEmotion scores rawLabel rawScore)) <= 92#100.
Proof.
  intros scores rawLabel rawScore; unfold updateStableEmotion; cbv zeta.
  destruct (fold_left bestStep _ (rawLabel, 0, 0)) as [[bl bs] t].
  cbn [snd]; destruct (Qlt_bool 0 t); [apply clamp_bounds; lra | lra].
Qed.



(** *** Age *)





(** *** Fatigue *)

Lemma estimateFatigue_face : forall st fa blinkInfo emotion,
  let r := estimateFatigue st (Some fa) blinkInfo emotion in
  fatigue_score (snd r) = Math_round (smoothedFatigue (fst r)) /\
  fatigue_level (snd r) =
    (if Qle_bool 67 (smoothedFatigue (fst r)) then "Alta"
     else if Qle_bool 34 (smoothedFatigue (fst r)) then "Media" else "Baja")%string /\
  exists score, 0 <= score <= 100 /\
    smoothedFatigue (fst r) = applyEMA score (smoothedFatigue st) (18#100).
Proof.
  intros st fa blinkInfo emotion r.
  split; [reflexivity|]; split; [reflexivity|].
  eexists; split; cycle 1; [reflexivity|].
  apply clamp_bounds; lra.
Qed.

(** X: while the smoothed fatigue lies in [[0, 100]] (it starts at 25),
    [estimateFatigue] keeps it there and reports an integer score in
    [[0, 100]]; with a face, the score is the rounded smoothed fatigue and
    the level is "Alta" from 67, "Media" from 34 and "Baja" below, read on
    the unrounded value. *)
Theorem estimateFatigue_stays_in_range : forall st fa blinkInfo emotion,
  0 <= smoothedFatigue st <= 100 ->
  let r := estimateFatigue st fa blinkInfo emotion in
  0 <= smoothedFatigue (fst r) <= 100 /\
  (exists n, fatigue_score (snd r) = inject_Z n /\ (0 <= n <= 100)%Z) /\
  match fa with
  | None => True
  | Some _ =>
      fatigue_score (snd r) = Math_round (smoothedFatigue (fst r)) /\
      (fatigue_level (snd r) = "Alta"%string <-> 67 <= smoothedFatigue (fst r)) /\
      (fatigue_level (snd r) = "Media"%string <->
         34 <= smoothedFatigue (fst r) /\ smoothedFatigue (fst r) < 67) /\
      (fatigue_level (snd r) = "Baja"%string <-> smoothedFatigue (fst r) < 34)
  end.
Proof.
  intros st [fa|] blinkInfo emotion Hs r.
  2: { unfold r; cbn [estimateFatigue fst snd fatigue_score].
       split; [exact Hs|]; split; [|exact I].
       exists 35%Z; split; [reflexivity | lia]. }
  destruct (estimateFatigue_face st fa blinkInfo emotion) as (Hsc & Hlv & sc & Hb & He).
  fold r in Hsc, Hlv, He.
  assert (Hr : 0 <= smoothedFatigue (fst r) <= 100) by (rewrite He; unfold applyEMA; lra).
  split; [exact Hr|]; split.
  - rewrite Hsc; apply Math_round_range; change (inject_Z 0) with 0;
      change (inject_Z 100) with 100; lra.
  - split; [exact Hsc|]; rewrite Hlv.
    set (s := smoothedFatigue (fst r)).
    destruct (Qle_bool 67 s) eqn:E67.
    + apply Qle_bool_iff in E67.
      split; [split; [intros; exact E67 | reflexivity]|].
      split; [split; [intros H; discriminate H | lra]|].
      split; [intros H; discriminate H | lra].
    + assert (Hlt : s < 67).
      { apply Qnot_le_lt; intros Hle; apply Qle_bool_iff in Hle; congruence. }
      destruct (Qle_bool 34 s) eqn:E34.
      * apply Qle_bool_iff in E34.
        split; [split; [intros H; discriminate H | lra]|].
        split; [split; [intros; split; assumption | reflexivity]|].
        split; [intros H; discriminate H | lra].
      * assert (H34 : s < 34).
        { apply Qnot_le_lt; intros Hle; apply Qle_bool_iff in Hle; congruence. }
        split; [split; [intros H; discriminate H | lra]|].
        split; [split; [intros H; discriminate H | lra]|].
        split; [intros; exact H34 | intros; reflexivity].
Qed.

(** A witness: the first face frame of a session (smoothed fatigue 25). *)
Lemma estimateFatigue_stays_in_range_witness :
  0 <= smoothedFatigue (fst (estimateFatigue (mkFatigueState [] [] 0 25)
                               (Some (mkFaceGeometry None (15#100) 0))
                               (Some (Blink.mkOutput 5 true true)) (Triste, 1#2))) <= 100.
Proof.
  destruct (estimateFatigue_stays_in_range (mkFatigueState [] [] 0 25)
              (Some (mkFaceGeometry None (15#100) 0))
              (Some (Blink.mkOutput 5 true true)) (Triste, 1#2)
              ltac:(cbn [smoothedFatigue]; split; lra)) as [H _].
  exact H.
Defined.

(** A smoothed fatigue shown as 35 is on the "Media" side of the
    thresholds. *)
Lemma level_of_35 : forall s, Math_round s = 35 ->
  (if Qle_bool 67 s then "Alta" else if Qle_bool 34 s then "Media" else "Baja")%string
  = "Media"%string.
Proof.
  intros s H35.
  assert (Hf : Qfloor (s + (1#2)) = 35%Z) by exact (f_equal Qnum H35).
  assert (Hlo := Qfloor_le (s + (1#2))); assert (Hhi := Qlt_floor (s + (1#2))).
  rewrite Hf in Hlo, Hhi.
  change (inject_Z 35) with 35 in Hlo; change (inject_Z (35 + 1)) with 36 in Hhi.
  destruct (Qle_bool 67 s) eqn:E67.
  - apply Qle_bool_iff in E67; lra.
  - destruct (Qle_bool 34 s) eqn:E34; [reflexivity|].
    exfalso; assert (H34 : 34 <= s) by lra; apply Qle_bool_iff in H34; congruence.
Qed.

(** X: the no-face fallback of [estimateFatigue] reports score 35 with
    level "Baja" and leaves the state as it was, while on the face path a
    reported score of 35 always comes with level "Media": the fallback's
    level disagrees with the thresholds the face path applies. *)
Theorem fatigue_fallback_level_mismatch : forall st fa blinkInfo emotion,
  fatigue_score (snd (estimateFatigue st (Some fa) blinkInfo emotion)) = 35 ->
  fatigue_level (snd (estimateFatigue st (Some fa) blinkInfo emotion)) = "Media"%string /\
  estimateFatigue st None blinkInfo emotion = (st, mkFatigueResult 35 "Baja" 14 (34#100)).
Proof.
  intros st fa blinkInfo emotion H35.
  split; [|reflexivity].
  destruct (estimateFatigue_face st fa blinkInfo emotion) as (Hsc & Hlv & _).
  rewrite Hlv; apply level_of_35; rewrite <- Hsc; exact H35.
Qed.

(** A witness: smoothed fatigue 42.68 and an open eye give 34.9976, shown
    as 35. *)
Lemma fatigue_fallback_level_mismatch_witness :
  fatigue_level (snd (estimateFatigue (mkFatigueState [] [] 0 (4268#100))
                        (Some (mkFaceGeometry None (3#10) 0)) None (Neutral, 1#2)))
  = "Media"%string.
Proof.
  destruct (fatigue_fallback_level_mismatch (mkFatigueState [] [] 0 (4268#100))
              (mkFaceGeometry None (3#10) 0) None (Neutral, 1#2)
              ltac:(vm_compute; reflexivity)) as [H _].
  exact H.
Defined.

(** *** Calibration *)

Lemma collectAll_calibrating : forall Math_sqrt samples rs,
  isCalibrating rs = true ->
  let cd := calibrationData rs in
  let cd' := calibrationData (collectAll Math_sqrt rs samples) in
  isCalibrating (collectAll Math_sqrt rs samples) = true /\
  cal_attention cd' = cal_attention cd ++ map (fun '(a, _, _, _) => a) samples /\
  cal_blinkRate cd' = cal_blinkRate cd ++ map (fun '(_, b, _, _) => b) samples /\
  cal_fatigue cd' = cal_fatigue cd ++ map (fun '(_, _, f, _) => f) samples /\
  cal_emotionVolatility cd' = cal_emotionVolatility cd ++ map (fun '(_, _, _, e) => e) samples /\
  List.length (cal_headMotion cd') = (List.length (cal_headMotion cd) + List.length samples)%nat.
Proof.
  intros Math_sqrt samples; induction samples as [|[[[a b] f] e] rest IH];
    intros rs Hc cd cd'.
  - unfold cd', cd; cbn [collectAll fold_left map List.length].
    rewrite !app_nil_r, Nat.add_0_r.
    split; [exact Hc|]; do 4 (split; [reflexivity|]); reflexivity.
  - unfold cd', cd; clear cd cd'.
    change (collectAll Math_sqrt rs (((a, b, f, e)) :: rest))
      with (collectAll Math_sqrt (collectCalibration Math_sqrt rs a b f e) rest).
    set (rs1 := collectCalibration Math_sqrt rs a b f e).
    assert (Hc' : isCalibrating rs1 = true)
      by (unfold rs1, collectCalibration; rewrite Hc; reflexivity).
    assert (Hd : calibrationData rs1 =
      mkCalibrationData (cal_attention (calibrationData rs) ++ [a])
        (cal_blinkRate (calibrationData rs) ++ [b]) (cal_fatigue (calibrationData rs) ++ [f])
        (cal_headMotion (calibrationData rs) ++ [headMotionOf Math_sqrt (curHeadPose rs)])
        (cal_emotionVolatility (calibrationData rs) ++ [e]))
      by (unfold rs1, collectCalibration; rewrite Hc; reflexivity).
    destruct (IH rs1 Hc') as (H1 & H2 & H3 & H4 & H5 & H6).
    rewrite Hd in H2, H3, H4, H5, H6.
    cbn [cal_attention cal_blinkRate cal_fatigue cal_headMotion cal_emotionVolatility]
      in H2, H3, H4, H5, H6.
    rewrite H2, H3, H4, H5, H6, <- !app_assoc, !length_app; cbn [map List.length app].
    split; [exact H1|]; do 4 (split; [reflexivity|]); lia.
Qed.

(** X: after the calibrate button, every analyzed frame is recorded: the
    attention, blink-rate, fatigue and emotion accumulators are exactly the
    per-frame values in order, and the head-motion accumulator has one
    entry per frame; once the 5000 ms timeout has installed the baseline,
    later frames record nothing and the accumulated data is kept. *)
Theorem calibration_collects_every_frame : forall Math_sqrt rs samples,
  let rs' := collectAll Math_sqrt (startCalibration rs) samples in
  let cd := calibrationData rs' in
  isCalibrating rs' = true /\
  cal_attention cd = map (fun '(a, _, _, _) => a) samples /\
  cal_blinkRate cd = map (fun '(_, b, _, _) => b) samples /\
  cal_fatigue cd = map (fun '(_, _, f, _) => f) samples /\
  cal_emotionVolatility cd = map (fun '(_, _, _, e) => e) samples /\
  List.length (cal_headMotion cd) = List.length samples /\
  isCalibrating (finishCalibration Math_sqrt rs') = false /\
  calibrationData (finishCalibration Math_sqrt rs') = cd /\
  (forall a b f e,
     collectCalibration Math_sqrt (finishCalibration Math_sqrt rs') a b f e
     = finishCalibration Math_sqrt rs').
Proof.
  intros Math_sqrt rs samples rs' cd.
  destruct (collectAll_calibrating Math_sqrt samples (startCalibration rs) eq_refl)
    as (H1 & H2 & H3 & H4 & H5 & H6).
  fold rs' in H1, H2, H3, H4, H5, H6; fold cd in H2, H3, H4, H5, H6.
  cbn [startCalibration calibrationData emptyCalibrationData cal_attention cal_blinkRate
       cal_fatigue cal_emotionVolatility cal_headMotion app List.length] in *.
  split; [exact H1|]; split; [exact H2|]; split; [exact H3|]; split; [exact H4|].
  split; [exact H5|]; split; [exact H6|].
  split; [reflexivity|]; split; [reflexivity|].
  intros a b f e; reflexivity.
Qed.

(** *** Blink detector *)

Lemma update_fst : forall st ear mar now,
  fst (Blink.update st ear mar now) =
  let frames' :=
    filter (fun f => Z.ltb (now - Blink.timestamp f) Blink.windowSize)
      (Blink.frames st ++ [Blink.mkFrame now (negb (Qle_bool ear Blink.EAR_THRESHOLD))
                                              (negb (Qle_bool mar Blink.MAR_THRESHOLD))]) in
  Blink.mkState frames'
    (filter (fun t => Z.ltb (now - t) Blink.windowSize) (Blink.blinkEvents st)
     ++ (if Blink.closesAtEnd frames' then [now] else [])).
Proof.
  intros st ear mar now; unfold Blink.update; cbv zeta; cbn [fst].
  destruct (Blink.closesAtEnd _); [reflexivity | rewrite app_nil_r; reflexivity].
Qed.

Lemma update_events_backed : forall st ear mar now,
  events_backed st -> events_backed (fst (Blink.update st ear mar now)).
Proof.
  intros st ear mar now Hb; rewrite update_fst; cbv zeta.
  unfold events_backed in *; cbn [Blink.frames Blink.blinkEvents].
  apply Forall_app; split.
  - apply Forall_forall; intros t Ht; apply filter_In in Ht; destruct Ht as [Ht Hp].
    rewrite Forall_forall in Hb; destruct (Hb t Ht) as [f [Hf Hts]].
    exists f; split; [|exact Hts].
    apply filter_In; split; [apply in_or_app; left; exact Hf|].
    rewrite Hts; exact Hp.
  - destruct (Blink.closesAtEnd _); constructor; [|constructor].
    exists (Blink.mkFrame now (negb (Qle_bool ear Blink.EAR_THRESHOLD))
                             (negb (Qle_bool mar Blink.MAR_THRESHOLD))).
    split; [|reflexivity].
    apply filter_In; split; [apply in_or_app; right; left; reflexivity|].
    cbn [Blink.timestamp]; apply Z.ltb_lt; unfold Blink.windowSize; lia.
Qed.

Lemma run_fst : forall st ear mar now rest,
  fst (Blink.run st ((ear, mar, now) :: rest)) =
  fst (Blink.run (fst (Blink.update st ear mar now)) rest).
Proof.
  intros st ear mar now rest; cbn [Blink.run].
  destruct (Blink.update st ear mar now) as [st1 o]; cbn [fst].
  destruct (Blink.run st1 rest); reflexivity.
Qed.

Lemma run_events_backed : forall obs st,
  events_backed st -> events_backed (fst (Blink.run st obs)).
Proof.
  induction obs as [|[[ear mar] now] rest IH]; intros st Hb; [exact Hb|].
  rewrite run_fst; apply IH, update_events_backed, Hb.
Qed.

Lemma update_events_ordered : forall p st ear mar now,
  (p < now)%Z -> events_ordered p st -> events_ordered now (fst (Blink.update st ear mar now)).
Proof.
  intros p st ear mar now Hp [Hnd Hle]; rewrite update_fst; cbv zeta.
  unfold events_ordered; cbn [Blink.blinkEvents].
  set (ev := filter (fun t => Z.ltb (now - t) Blink.windowSize) (Blink.blinkEvents st)).
  assert (Hev : NoDup ev) by (apply NoDup_filter, Hnd).
  assert (Hevle : Forall (fun t => (t < now)%Z) ev).
  { apply Forall_forall; intros t Ht; apply filter_In in Ht; destruct Ht as [Ht _].
    rewrite Forall_forall in Hle; specialize (Hle t Ht); lia. }
  destruct (Blink.closesAtEnd _).
  - split.
    + apply NoDup_app; [exact Hev | constructor; [intros [] | constructor] |].
      intros x Hx [Hy|[]]; subst x; rewrite Forall_forall in Hevle.
      specialize (Hevle _ Hx); lia.
    + apply Forall_app; split; [|constructor; [lia | constructor]].
      eapply Forall_impl; [|exact Hevle]; intros t Ht; cbv beta in Ht; lia.
  - rewrite app_nil_r; split; [exact Hev|].
    eapply Forall_impl; [|exact Hevle]; intros t Ht; cbv beta in Ht; lia.
Qed.

Lemma run_events_ordered : forall obs p st,
  increasing_from p obs = true -> events_ordered p st ->
  NoDup (Blink.blinkEvents (fst (Blink.run st obs))).
Proof.
  induction obs as [|[[ear mar] now] rest IH]; intros p st Hinc Ho; [apply Ho|].
  cbn [increasing_from] in Hinc; apply andb_true_iff in Hinc; destruct Hinc as [Hlt Hinc].
  apply Z.ltb_lt in Hlt.
  rewrite run_fst; apply (IH now); [exact Hinc|].
  apply (update_events_ordered p); assumption.
Qed.

(** X: from a fresh (or reset) detector, every blink event kept is the
    timestamp of a frame still in the 60-second window: no event outlives
    the frames it was detected on. *)
Theorem blink_events_backed_by_frames : forall obs,
  Forall (fun t => exists f, In f (Blink.frames (fst (Blink.run Blink.init obs)))
                             /\ Blink.timestamp f = t)
    (Blink.blinkEvents (fst (Blink.run Blink.init obs))).
Proof.
  intros obs; apply (run_events_backed obs Blink.init); constructor.
Qed.

(** X: when frames come with strictly increasing timestamps, no blink is
    counted twice and the detector never holds more blink events than
    retained frames. *)
Theorem blink_events_at_most_frames : forall p obs,
  increasing_from p obs = true ->
  NoDup (Blink.blinkEvents (fst (Blink.run Blink.init obs))) /\
  (List.length (Blink.blinkEvents (fst (Blink.run Blink.init obs)))
   <= List.length (Blink.frames (fst (Blink.run Blink.init obs))))%nat.
Proof.
  intros p obs Hinc.
  assert (Hnd : NoDup (Blink.blinkEvents (fst (Blink.run Blink.init obs))))
    by (apply (run_events_ordered obs p); [exact Hinc | split; constructor]).
  split; [exact Hnd|].
  assert (Hb := run_events_backed obs Blink.init ltac:(constructor)).
  unfold events_backed in Hb.
  rewrite <- (length_map Blink.timestamp).
  apply NoDup_incl_length; [exact Hnd|].
  intros t Ht; rewrite Forall_forall in Hb; destruct (Hb t Ht) as [f [Hf Hts]].
  apply in_map_iff; exists f; split; assumption.
Qed.

(** A witness: one frame per second for 62 seconds, alternating eye. *)
Lemma blink_events_at_most_frames_witness :
  (List.length (Blink.blinkEvents (fst (Blink.run Blink.init (blink_feed 1000 62))))
   <= List.length (Blink.frames (fst (Blink.run Blink.init (blink_feed 1000 62)))))%nat.
Proof.
  destruct (blink_events_at_most_frames (-1) (blink_feed 1000 62)
              ltac:(vm_compute; reflexivity)) as [_ H].
  exact H.
Defined.
